(** * places_search.py: a shallow embedding of the Places nearby-search client

    The development follows [src/places_search.py]: the field mask and the
    cost table of [PlacesSearcher], the page-follow loop [search_nearby], the
    CSV exporter [save_to_csv] and the driver [main].

    Conventions of the embedding.
    - A Python [str] is a Rocq [string] holding the UTF-8 encoding of the
      text; iterating a [str] walks it code point by code point ([str_chars]).
    - A Python [float] is a binary64 primitive float, an [int] is a [Z].
    - Values decoded from JSON, and the dictionaries the client builds, are
      terms of [py]; a dictionary keeps its items in insertion order.
    - Exceptions are values of [exn]; code that may raise returns a [result].
    - Effects are threaded through a [World]: the file store, the lines
      printed on standard output and the payloads posted to the service.
      The service is a script of replies, consumed one per request.
    - The libraries the script calls are modelled by what they do here:
      [requests.post] with [raise_for_status] and [json], [csv.DictWriter]
      with the excel dialect, [open] on a file system that says which
      paths can be opened.  [str], [json.dumps], float formatting and the
      answer of the file system are parameters. *)

From Stdlib Require Import PrimFloat Uint63 ZArith String Ascii List Bool Lia.
From stdpp Require Import base option list strings gmap pretty.

Set Warnings "-inexact-float,-register-all".

Local Open Scope list_scope.
Local Open Scope string_scope.

(** ** Python values *)

Inductive py : Type :=
| PNone
| PBool (b : bool)
| PInt (n : Z)
| PFloat (x : float)
| PStr (s : string)
| PList (xs : list py)
| PDict (items : list (string * py)).

Inductive exn : Type :=
| AttributeError
| TypeError
| KeyError
| ValueError
| UnboundLocalError
| OSError
| SystemExit (code : Z).

Inductive result (A : Type) : Type :=
| Ok (a : A)
| Raise (e : exn).

Arguments Ok {A} a.
Arguments Raise {A} e.

#[global] Instance result_ret : MRet result := fun A a => Ok a.
#[global] Instance result_bind : MBind result :=
  fun A B f m => match m with Ok a => f a | Raise e => Raise e end.

(** [bool(v)]: Python's truth value of a JSON-shaped value. *)
Definition truthy (v : py) : bool :=
  match v with
  | PNone => false
  | PBool b => b
  | PInt n => negb (n =? 0)%Z
  | PFloat x => negb (PrimFloat.eqb x 0)
  | PStr s => negb (s =? "")
  | PList xs => match xs with [] => false | _ :: _ => true end
  | PDict items => match items with [] => false | _ :: _ => true end
  end.

(** ** Strings *)

Definition LF : string := String "010"%char "".
Definition CRLF : string := String "013"%char LF.
Definition DQUOTE : string := String "034"%char "".

(** A byte of the form 10xxxxxx continues the code point begun before it. *)
Definition is_continuation (c : ascii) : bool :=
  let n := nat_of_ascii c in ((128 <=? n) && (n <? 192))%nat.

(** The characters of a [str], each as a one-character [str]: a byte is
    glued to the chunk after it when that chunk starts on a continuation
    byte. *)
Definition starts_on_continuation (ch : string) : bool :=
  match ch with String d _ => is_continuation d | "" => false end.

Fixpoint str_chars (s : string) : list string :=
  match s with
  | "" => []
  | String c s' =>
      match str_chars s' with
      | ch :: more =>
          if starts_on_continuation ch then String c ch :: more
          else String c "" :: ch :: more
      | [] => [String c ""]
      end
  end.

(** [sep.join(parts)]. *)
Definition str_join (sep : string) (parts : list string) : string :=
  String.concat sep parts.

(** [s.split(sep)] for a non-empty [sep] (Python raises [ValueError] on the
    empty separator; the source only splits on a comma).  [skip] counts the
    bytes of a separator match still to be dropped, [cur] is the piece being
    read. *)
Fixpoint split_from (sep : string) (skip : nat) (cur s : string) : list string :=
  match s with
  | "" => [cur]
  | String c s' =>
      match skip with
      | S n => split_from sep n cur s'
      | O =>
          if String.prefix sep s
          then cur :: split_from sep (String.length sep - 1) "" s'
          else split_from sep 0 (cur ++ String c "") s'
      end
  end.

Definition str_split (sep s : string) : list string := split_from sep 0 "" s.

(** [s.replace(old, new)] for a non-empty [old]: every occurrence, left to
    right, without overlap. *)
Fixpoint replace_from (old new : string) (skip : nat) (s : string) : string :=
  match s with
  | "" => ""
  | String c s' =>
      match skip with
      | S n => replace_from old new n s'
      | O =>
          if String.prefix old s
          then new ++ replace_from old new (String.length old - 1) s'
          else String c (replace_from old new 0 s')
      end
  end.

Definition str_replace (old new s : string) : string := replace_from old new 0 s.

(** The characters [str.isspace] accepts, in UTF-8. *)
Definition bytes (codes : list nat) : string :=
  string_of_list_ascii (map ascii_of_nat codes).

Definition whitespace : list string :=
  map bytes
    [ [9]; [10]; [11]; [12]; [13]; [28]; [29]; [30]; [31]; [32];
      [194; 133]; [194; 160]; [225; 154; 128];
      [226; 128; 128]; [226; 128; 129]; [226; 128; 130]; [226; 128; 131];
      [226; 128; 132]; [226; 128; 133]; [226; 128; 134]; [226; 128; 135];
      [226; 128; 136]; [226; 128; 137]; [226; 128; 138];
      [226; 128; 168]; [226; 128; 169]; [226; 128; 175]; [226; 129; 159];
      [227; 128; 128] ].

Definition is_space (ch : string) : bool := bool_decide (ch ∈ whitespace).

Fixpoint drop_spaces (chars : list string) : list string :=
  match chars with
  | ch :: rest => if is_space ch then drop_spaces rest else chars
  | [] => []
  end.

(** [s.strip()]. *)
Definition str_strip (s : string) : string :=
  String.concat "" (rev (drop_spaces (rev (drop_spaces (str_chars s))))).

(** [str * n] for the banner lines. *)
Fixpoint str_repeat (s : string) (n : nat) : string :=
  match n with O => "" | S k => s ++ str_repeat s k end.

(** ** Dictionaries *)

Fixpoint dict_lookup {A} (k : string) (items : list (string * A)) : option A :=
  match items with
  | [] => None
  | (k', v) :: rest => if k =? k' then Some v else dict_lookup k rest
  end.

(** [d[k] = v]: replace in place, or append a new item. *)
Fixpoint dict_set {A} (k : string) (v : A) (items : list (string * A))
  : list (string * A) :=
  match items with
  | [] => [(k, v)]
  | (k', v') :: rest =>
      if k =? k' then (k, v) :: rest else (k', v') :: dict_set k v rest
  end.

(** [d[k]]. *)
Definition dict_item {A} (k : string) (items : list (string * A)) : result A :=
  match dict_lookup k items with Some v => Ok v | None => Raise KeyError end.

(** [d.get(k, default)]; only a [dict] has the method. *)
Definition py_get (d : py) (k : string) (default : py) : result py :=
  match d with
  | PDict items => Ok (from_option id default (dict_lookup k items))
  | _ => Raise AttributeError
  end.

(** The items an iteration over [v] yields. *)
Definition py_iter (v : py) : result (list py) :=
  match v with
  | PList xs => Ok xs
  | PStr s => Ok (map PStr (str_chars s))
  | PDict items => Ok (map (fun kv => PStr (fst kv)) items)
  | _ => Raise TypeError
  end.

Definition as_str (v : py) : result string :=
  match v with PStr s => Ok s | _ => Raise TypeError end.

(** [sep.join(v)]: [v] must be iterable and yield only [str]. *)
Definition py_join (sep : string) (v : py) : result string :=
  xs ← py_iter v; parts ← mapM as_str xs; Ok (str_join sep parts).

(** ** The price table *)

Definition FIELD_COSTS : gmap string float :=
  list_to_map
    [ ("id", 0.0); ("displayName", 0.0); ("formattedAddress", 0.0);
      ("location", 0.0); ("types", 0.0); ("primaryType", 0.0);
      ("primaryTypeDisplayName", 0.0); ("shortFormattedAddress", 0.0);
      ("googleMapsUri", 0.0);
      ("nationalPhoneNumber", 0.005); ("internationalPhoneNumber", 0.005);
      ("rating", 0.005); ("userRatingCount", 0.005); ("businessStatus", 0.005);
      ("priceLevel", 0.005); ("websiteUri", 0.005);
      ("regularOpeningHours", 0.005); ("utcOffsetMinutes", 0.005);
      ("currentOpeningHours", 0.007); ("currentSecondaryOpeningHours", 0.007);
      ("regularSecondaryOpeningHours", 0.007); ("editorialSummary", 0.007);
      ("reviews", 0.007); ("photos", 0.007) ]%float.

Definition BASE_NEARBY_SEARCH_COST : float := 0.017%float.

(** ** The client object *)

Record PlacesSearcher : Type := {
  api_key : string;
  data_level : string;
  debug : bool;
  base_url : string;
  headers : list (string * string)
}.

(** The [fields] list of [_get_field_mask], by data level. *)
Definition mask_fields (data_level : string) : list string :=
  if data_level =? "id_only" then
    ["places.id"; "places.displayName"]
  else if data_level =? "basic" then
    ["places.id"; "places.displayName"; "places.formattedAddress";
     "places.location"; "places.types"; "places.primaryType";
     "places.googleMapsUri"]
  else if data_level =? "advanced" then
    ["places.id"; "places.displayName"; "places.formattedAddress";
     "places.location"; "places.types"; "places.primaryType";
     "places.googleMapsUri"; "places.rating"; "places.userRatingCount";
     "places.nationalPhoneNumber"; "places.internationalPhoneNumber";
     "places.websiteUri"; "places.businessStatus"]
  else
    ["places.id"; "places.displayName"].

Definition _get_field_mask (data_level : string) : string :=
  str_join "," (mask_fields data_level).

(** [PlacesSearcher.__init__]. *)
Definition PlacesSearcher_init (api_key data_level : string) (debug : bool)
  : PlacesSearcher :=
  {| api_key := api_key;
     data_level := data_level;
     debug := debug;
     base_url := "https://places.googleapis.com/v1/places:searchNearby";
     headers :=
       [ ("Content-Type", "application/json");
         ("X-Goog-Api-Key", api_key);
         ("X-Goog-FieldMask", _get_field_mask data_level) ] |}.

Definition add_field_cost (cost : float) (field : string) : float :=
  match FIELD_COSTS !! field with
  | Some c => (cost + c)%float
  | None => cost
  end.

Definition calculate_request_cost (self : PlacesSearcher) : result float :=
  field_mask ← dict_item "X-Goog-FieldMask" self.(headers);
  let fields := map (str_replace "places." "") (str_split "," field_mask) in
  Ok (fold_left add_field_cost fields BASE_NEARBY_SEARCH_COST).

(** ** The world and its effects *)

Record World : Type := {
  files : gmap string string;  (* path to contents *)
  stdout : list string;        (* one entry per call of [print] *)
  posted : list py             (* request payloads, oldest first *)
}.

(** A computation that reads and changes the world and may raise. *)
Definition io (A : Type) : Type := World -> World * result A.

#[global] Instance io_ret : MRet io := fun A a w => (w, Ok a).
#[global] Instance io_bind : MBind io :=
  fun A B f m w =>
    match m w with
    | (w', Ok a) => f a w'
    | (w', Raise e) => (w', Raise e)
    end.

Definition lift {A} (r : result A) : io A := fun w => (w, r).

Definition print (line : string) : io unit :=
  fun w => ({| files := w.(files); stdout := w.(stdout) ++ [line];
               posted := w.(posted) |}, Ok tt).

Definition when (b : bool) (m : io unit) : io unit :=
  if b then m else mret tt.

(** [open(path, 'w', newline='', encoding='utf-8')].  [can_open path] is the
    answer of the file system: where the path can be opened for writing the
    file is created or truncated; where it cannot (no such directory, no
    permission, a directory of that name) the call raises [OSError] and
    creates nothing. *)
Definition open_w (can_open : string -> bool) (path : string) : io unit :=
  fun w =>
    if can_open path
    then ({| files := <[path := ""]> w.(files); stdout := w.(stdout);
             posted := w.(posted) |}, Ok tt)
    else (w, Raise OSError).

(** [csvfile.write(data)] on the file opened at [path]. *)
Definition write (path data : string) : io unit :=
  fun w => ({| files := alter (fun old => (old ++ data)%string) path w.(files);
               stdout := w.(stdout); posted := w.(posted) |}, Ok tt).

(** ** The remote service *)

Record Response : Type := {
  status_code : Z;
  response_headers : py;  (* [dict(response.headers)] *)
  text : string;
  json : option py        (* the decoded body; [None] when it is not JSON *)
}.

Inductive RequestKind : Type :=
| ConnectionError
| Timeout
| HTTPError
| JSONDecodeError.

(** A [requests.exceptions.RequestException]. *)
Record RequestException : Type := {
  kind : RequestKind;
  message : string;           (* [str(e)] *)
  response : option Response  (* [e.response] *)
}.

(** What one call of [requests.post] meets. *)
Inductive Reply : Type :=
| NoResponse (e : RequestException)  (* the call itself raises *)
| Responded (r : Response).

(** [requests.post(url, headers=..., json=payload, timeout=30)] hands the
    payload to the service. *)
Definition post (payload : py) : io unit :=
  fun w => ({| files := w.(files); stdout := w.(stdout);
               posted := w.(posted) ++ [payload] |}, Ok tt).

(** [response.raise_for_status()] raises on 4xx and 5xx. *)
Definition is_error_status (r : Response) : bool :=
  ((400 <=? r.(status_code)) && (r.(status_code) <? 600))%Z.

Record LoopState : Type := {
  all_places : list py;
  next_page_token : py;
  request_count : Z
}.

(** The namespace [parser.parse_args()] returns.  [argparse] admits only
    the three known data levels; the model takes any string. *)
Module Args.
Record t : Type := {
  lat : float;
  lng : float;
  radius : float;
  category : option string;
  output : option string;
  data_level : string;
  debug : bool
}.
End Args.

(** [int -> float], as the product [float * int] converts its right operand
    (exact below 2^53; the model is for counts below 2^63). *)
Definition float_of_int (n : Z) : float := PrimFloat.of_uint63 (Uint63.of_Z n).

Definition run {A} (m : io A) (w : World) : World := fst (m w).

Section Client.

(** Text conversions of the Python runtime, left abstract:
    - [py_str v] is [str(v)] for a value that is not a [str];
    - [json_dumps v] is [json.dumps(v, indent=2)];
    - [format_4f x] is [format(x, '.4f')];
    - [error_message k r] is [str(e)] for the exception of kind [k] that
      [raise_for_status] or [json] raises on the response [r]. *)
Variable py_str : py -> string.
Variable json_dumps : py -> string.
Variable format_4f : float -> string.
Variable error_message : RequestKind -> Response -> string.

(** The file system the program runs in, left abstract: [can_open path]
    tells whether [open(path, 'w')] succeeds. *)
Variable can_open : string -> bool.

(** A replacement field [{v}] of an f-string. *)
Definition py_format (v : py) : string :=
  match v with PStr s => s | _ => py_str v end.

(** *** search_nearby *)

Definition build_payload (latitude longitude radius : float)
    (include_types : option (list string)) (next_page_token : py)
  : list (string * py) :=
  let payload :=
    [ ("locationRestriction",
       PDict [ ("circle",
                PDict [ ("center",
                         PDict [ ("latitude", PFloat latitude);
                                 ("longitude", PFloat longitude) ]);
                        ("radius", PFloat radius) ]) ]);
      ("maxResultCount", PInt 20) ] in
  let payload :=
    match include_types with
    | Some (t :: ts) => dict_set "includedTypes" (PList (map PStr (t :: ts))) payload
    | _ => payload
    end in
  let payload := dict_set "rankPreference" (PStr "DISTANCE") payload in
  if truthy next_page_token
  then dict_set "pageToken" next_page_token payload
  else payload.

Definition debug_request (self : PlacesSearcher) (payload : py) : io unit :=
  when self.(debug) (
    _ ← print (LF ++ "--- API Request ---");
    _ ← print ("URL: " ++ self.(base_url));
    _ ← print ("Headers: " ++
               json_dumps (PDict (map (fun kv => (fst kv, PStr (snd kv))) self.(headers))));
    _ ← print ("Payload: " ++ json_dumps payload);
    print ("--- End Request ---" ++ LF)).

Definition debug_raw_response (self : PlacesSearcher) (r : Response) : io unit :=
  when self.(debug) (
    _ ← print (LF ++ "--- Raw Response ---");
    _ ← print ("Status Code: " ++ pretty r.(status_code));
    _ ← print ("Response Headers: " ++ py_format r.(response_headers));
    _ ← print ("Response Text: " ++ r.(text));
    print ("--- End Raw Response ---" ++ LF)).

(** The [try] body up to [result = response.json()]: the decoded body, or
    the [RequestException] the [except] clause catches.  A body that is not
    JSON raises [requests.exceptions.JSONDecodeError], which is a
    [RequestException] (requests 2.27 and later). *)
Definition receive (self : PlacesSearcher) (reply : Reply)
  : io (RequestException + py) :=
  match reply with
  | NoResponse e => mret (inl e)
  | Responded r =>
      _ ← debug_raw_response self r;
      if is_error_status r then
        mret (inl {| kind := HTTPError;
                     message := error_message HTTPError r;
                     response := Some r |})
      else
        match r.(json) with
        | None =>
            mret (inl {| kind := JSONDecodeError;
                         message := error_message JSONDecodeError r;
                         response := None |})
        | Some result => mret (inr result)
        end
  end.

(** The rest of the [try] body, from [request_count += 1] to the reading
    of the next page token.  [len(places)] is the number of items the
    iteration over [places] gave. *)
Definition accept_page (self : PlacesSearcher) (result : py) (st : LoopState)
  : io LoopState :=
  let request_count := (st.(request_count) + 1)%Z in
  _ ← when self.(debug) (
        _ ← print (LF ++ "--- Parsed API Response (Page " ++ pretty request_count
                   ++ ") ---");
        _ ← print (json_dumps result);
        print ("--- End Response ---" ++ LF));
  places ← lift (py_get result "places" (PList []));
  items ← lift (py_iter places);
  let all_places := (st.(all_places) ++ items)%list in
  _ ← print ("Fetched page " ++ pretty request_count ++ ": "
             ++ pretty (Z.of_nat (length items)) ++ " places (Total so far: "
             ++ pretty (Z.of_nat (length all_places)) ++ ")");
  next_page_token ← lift (py_get result "nextPageToken" PNone);
  _ ← print (if truthy next_page_token
             then "  → Next page token found, fetching more results..."
             else "  → No more pages available (no nextPageToken in response)");
  mret {| all_places := all_places;
          next_page_token := next_page_token;
          request_count := request_count |}.

(** The [except requests.exceptions.RequestException] clause. *)
Definition request_failed {A} (e : RequestException) : io A :=
  _ ← print ("Error making API request: " ++ e.(message));
  _ ← match e.(response) with
      | Some r => print ("Response: " ++ r.(text))
      | None => mret tt
      end;
  lift (Raise (SystemExit 1)).

(** The request leaves: the diagnostics of the request, then the call of
    [requests.post]. *)
Definition send_request (self : PlacesSearcher) (payload : py) : io unit :=
  _ ← debug_request self payload;
  post payload.

(** The [while True] loop.  [script] holds the replies the service will
    give, in order; [None] is a run still waiting for a reply when the
    script ends. *)
Fixpoint search_loop (self : PlacesSearcher) (latitude longitude radius : float)
    (include_types : option (list string)) (script : list Reply)
    (st : LoopState) (w : World) : World * option (result (list py * Z)) :=
  let payload :=
    PDict (build_payload latitude longitude radius include_types
             st.(next_page_token)) in
  let w := run (send_request self payload) w in
  match script with
  | [] => (w, None)
  | reply :: script =>
      match receive self reply w with
      | (w, Raise e) => (w, Some (Raise e))
      | (w, Ok (inl e)) =>
          let (w, r) := request_failed e w in (w, Some r)
      | (w, Ok (inr result)) =>
          match accept_page self result st w with
          | (w, Raise e) => (w, Some (Raise e))
          | (w, Ok st) =>
              if truthy st.(next_page_token)
              then search_loop self latitude longitude radius include_types
                     script st w
              else (w, Some (Ok (st.(all_places), st.(request_count))))
          end
      end
  end.

Definition search_nearby (self : PlacesSearcher) (latitude longitude radius : float)
    (keyword : option string) (include_types : option (list string))
    (script : list Reply) (w : World)
  : World * option (result (list py * Z)) :=
  search_loop self latitude longitude radius include_types script
    {| all_places := []; next_page_token := PNone; request_count := 0 |} w.

(** *** The csv module: [csv.DictWriter] with the excel dialect *)

(** The text [csv.writer] writes for a field: a [str] as it is, [None] as
    the empty text, anything else through [str]. *)
Definition csv_text (v : py) : string :=
  match v with PStr s => s | PNone => "" | _ => py_str v end.

(** Delimiter, quote character and the characters of the line terminator. *)
Definition is_special (c : ascii) : bool :=
  let n := nat_of_ascii c in
  ((n =? 44) || (n =? 34) || (n =? 13) || (n =? 10))%nat.

Fixpoint needs_quotes (s : string) : bool :=
  match s with
  | "" => false
  | String c s' => is_special c || needs_quotes s'
  end.

Fixpoint double_quotes (s : string) : string :=
  match s with
  | "" => ""
  | String c s' =>
      if (nat_of_ascii c =? 34)%nat
      then String c (String c (double_quotes s'))
      else String c (double_quotes s')
  end.

Definition csv_field (s : string) : string :=
  if needs_quotes s then DQUOTE ++ double_quotes s ++ DQUOTE else s.

(** [writer.writerow(fields)]: the line written.  A record that comes out
    empty although it has a field is written as a pair of quotes. *)
Definition writer_writerow (fields : list py) : string :=
  let record := str_join "," (map (fun v => csv_field (csv_text v)) fields) in
  (match fields with
   | _ :: _ => if record =? "" then DQUOTE ++ DQUOTE else record
   | [] => record
   end) ++ CRLF.

(** [DictWriter.writerow(rowdict)] with [restval=''] and
    [extrasaction='raise']. *)
Definition DictWriter_writerow (fieldnames : list string)
    (rowdict : list (string * py)) : result string :=
  if forallb (fun kv => bool_decide (fst kv ∈ fieldnames)) rowdict
  then Ok (writer_writerow
             (map (fun key => from_option id (PStr "") (dict_lookup key rowdict))
                fieldnames))
  else Raise ValueError.

Definition DictWriter_writeheader (fieldnames : list string) : result string :=
  DictWriter_writerow fieldnames (map (fun f => (f, PStr f)) fieldnames).

(** *** save_to_csv *)

(** The column list chosen before the file is opened. *)
Definition csv_fieldnames (data_level : string) : list string :=
  if data_level =? "id_only" then
    ["place_id"; "google_maps_url"]
  else if data_level =? "basic" then
    ["place_id"; "name"; "address"; "latitude"; "longitude"; "types";
     "primary_type"; "google_maps_url"]
  else if data_level =? "advanced" then
    ["place_id"; "name"; "address"; "latitude"; "longitude"; "types";
     "primary_type"; "google_maps_url"; "rating"; "user_ratings_total";
     "phone_national"; "phone_international"; "website"; "business_status"]
  else
    ["place_id"].

Definition MAPS_URL : string := "https://www.google.com/maps/place/?q=place_id:".

(** [place.get(outer, {}).get(inner, "")]. *)
Definition get_nested (place : py) (outer inner : string) : result py :=
  obj ← py_get place outer (PDict []);
  py_get obj inner (PStr "").

(** [", ".join(place.get("types", []))]. *)
Definition get_types (place : py) : result py :=
  types ← py_get place "types" (PList []);
  joined ← py_join ", " types;
  Ok (PStr joined).

(** The eight entries the basic and advanced rows share, in the order the
    dictionary display evaluates them. *)
Definition basic_entries (place : py) : result (list (string * py)) :=
  place_id ← py_get place "id" (PStr "");
  name ← get_nested place "displayName" "text";
  address ← py_get place "formattedAddress" (PStr "");
  latitude ← get_nested place "location" "latitude";
  longitude ← get_nested place "location" "longitude";
  types ← get_types place;
  primary_type ← py_get place "primaryType" (PStr "");
  google_maps_url ← py_get place "googleMapsUri" (PStr "");
  Ok [ ("place_id", place_id); ("name", name); ("address", address);
       ("latitude", latitude); ("longitude", longitude); ("types", types);
       ("primary_type", primary_type); ("google_maps_url", google_maps_url) ].

Definition advanced_entries (place : py) : result (list (string * py)) :=
  rating ← py_get place "rating" (PStr "");
  user_ratings_total ← py_get place "userRatingCount" (PStr "");
  phone_national ← py_get place "nationalPhoneNumber" (PStr "");
  phone_international ← py_get place "internationalPhoneNumber" (PStr "");
  website ← py_get place "websiteUri" (PStr "");
  business_status ← py_get place "businessStatus" (PStr "");
  Ok [ ("rating", rating); ("user_ratings_total", user_ratings_total);
       ("phone_national", phone_national);
       ("phone_international", phone_international);
       ("website", website); ("business_status", business_status) ].

(** The [if]/[elif] chain of the loop body.  [row] is the local variable:
    [None] while it is unbound; a data level that matches no branch leaves
    it as it was. *)
Definition assign_row (self : PlacesSearcher) (place : py)
    (row : option (list (string * py))) : result (option (list (string * py))) :=
  if self.(data_level) =? "id_only" then
    place_id ← py_get place "id" (PStr "");
    Ok (Some [ ("place_id", place_id);
               ("google_maps_url", PStr (MAPS_URL ++ py_format place_id)) ])
  else if self.(data_level) =? "basic" then
    entries ← basic_entries place;
    Ok (Some entries)
  else if self.(data_level) =? "advanced" then
    entries ← basic_entries place;
    more ← advanced_entries place;
    Ok (Some (entries ++ more)%list)
  else
    Ok row.

(** Reading the local variable [row]. *)
Definition read_row (row : option (list (string * py)))
  : result (list (string * py)) :=
  match row with Some r => Ok r | None => Raise UnboundLocalError end.

(** The [for place in places] loop. *)
Fixpoint write_rows (self : PlacesSearcher) (fieldnames : list string)
    (output_file : string) (places : list py)
    (row : option (list (string * py))) : io unit :=
  match places with
  | [] => mret tt
  | place :: rest =>
      row ← lift (assign_row self place row);
      rowdict ← lift (read_row row);
      line ← lift (DictWriter_writerow fieldnames rowdict);
      _ ← write output_file line;
      write_rows self fieldnames output_file rest row
  end.

Definition save_to_csv (self : PlacesSearcher) (places : list py)
    (output_file : string) : io unit :=
  match places with
  | [] => print "No places found in the results"
  | _ :: _ =>
      let fieldnames := csv_fieldnames self.(data_level) in
      _ ← open_w can_open output_file;
      header ← lift (DictWriter_writeheader fieldnames);
      _ ← write output_file header;
      _ ← write_rows self fieldnames output_file places None;
      _ ← print (LF ++ "Results saved to: " ++ output_file);
      print ("Total places found: " ++ pretty (Z.of_nat (length places)))
  end.

(** *** main *)

Definition RULE : string := str_repeat "=" 60.

Definition total_cost (cost_per_request : float) (request_count : Z) : float :=
  (cost_per_request * float_of_int request_count)%float.

(** [include_types] as [main] derives it from [--category]. *)
Definition parse_categories (category : option string) : option (list string) :=
  match category with
  | Some (String c cs) => Some (map str_strip (str_split "," (String c cs)))
  | _ => None
  end.

(** The output path: [--output], or a name made of the time stamp. *)
Definition output_path (output : option string) (timestamp : string) : string :=
  match output with
  | None => "places_" ++ timestamp ++ ".csv"
  | Some path => path
  end.

(** From the parsed arguments to the banner: the credential check, the
    category list, the output path, the client and its cost estimate.
    [GOOGLE_MAPS_API_KEY] is what [os.getenv] returns, [timestamp] what
    [datetime.now().strftime] returns. *)
Definition main_setup (args : Args.t) (GOOGLE_MAPS_API_KEY : option string)
    (timestamp : string)
  : io (PlacesSearcher * float * option (list string) * string) :=
  api_key ←
    match GOOGLE_MAPS_API_KEY with
    | Some (String c k) => mret (String c k)
    | _ =>
        _ ← print "Error: GOOGLE_MAPS_API_KEY not found in .env file";
        lift (Raise (SystemExit 1))
    end;
  let include_types := parse_categories args.(Args.category) in
  let output := output_path args.(Args.output) timestamp in
  let searcher :=
    PlacesSearcher_init api_key args.(Args.data_level) args.(Args.debug) in
  cost_per_request ← lift (calculate_request_cost searcher);
  _ ← print (LF ++ RULE);
  _ ← print "Google Places API - Nearby Search";
  _ ← print RULE;
  _ ← print ("Location: (" ++ py_format (PFloat args.(Args.lat)) ++ ", "
             ++ py_format (PFloat args.(Args.lng)) ++ ")");
  _ ← print ("Radius: " ++ py_format (PFloat args.(Args.radius)) ++ " meters");
  _ ← print ("Category: " ++
             match args.(Args.category) with
             | Some (String c cs) => String c cs
             | _ => "All types"
             end);
  _ ← print ("Data Level: " ++ args.(Args.data_level));
  _ ← print (LF ++ "Estimated cost per request: $" ++ format_4f cost_per_request
             ++ " USD");
  _ ← print "(Based on Google's official pricing documentation)";
  _ ← print "Note: Actual costs are tracked in your Google Cloud Console";
  _ ← print (RULE ++ LF);
  _ ← print ("Searching for nearby places (fetching all pages)..." ++ LF);
  mret (searcher, cost_per_request, include_types, output).

(** From the export to the run summary. *)
Definition main_report (searcher : PlacesSearcher) (cost_per_request : float)
    (output : string) (all_places : list py) (request_count : Z) : io unit :=
  _ ← save_to_csv searcher all_places output;
  let total_cost := total_cost cost_per_request request_count in
  _ ← print (LF ++ RULE);
  _ ← print "Search completed successfully!";
  _ ← print ("Total pages fetched: " ++ pretty request_count);
  _ ← print ("Total places found: " ++ pretty (Z.of_nat (length all_places)));
  _ ← print ("Estimated cost per request: $" ++ format_4f cost_per_request ++ " USD");
  _ ← print ("Estimated total cost: $" ++ format_4f total_cost ++ " USD");
  _ ← print (LF ++ "View actual costs at: https://console.cloud.google.com/billing");
  print (RULE ++ LF).

Definition main (args : Args.t) (GOOGLE_MAPS_API_KEY : option string)
    (timestamp : string) (script : list Reply) (w : World)
  : World * option (result unit) :=
  match main_setup args GOOGLE_MAPS_API_KEY timestamp w with
  | (w, Raise e) => (w, Some (Raise e))
  | (w, Ok (searcher, cost_per_request, include_types, output)) =>
      match
        search_nearby searcher args.(Args.lat) args.(Args.lng)
          args.(Args.radius) None include_types script w
      with
      | (w, None) => (w, None)
      | (w, Some (Raise e)) => (w, Some (Raise e))
      | (w, Some (Ok (all_places, request_count))) =>
          let (w, r) :=
            main_report searcher cost_per_request output all_places
              request_count w in
          (w, Some r)
      end
  end.

End Client.

(** The status the interpreter exits with: [sys.exit(n)] gives [n], any other
    uncaught exception a traceback and status 1. *)
Definition exit_status (r : result unit) : Z :=
  match r with
  | Ok _ => 0
  | Raise (SystemExit code) => code
  | Raise _ => 1
  end.

(** * Vocabulary of the statements *)

(** A field of the mask is priced when the table has its name without the
    [places.] prefix. *)
Definition priced (field : string) (price : float) : Prop :=
  exists name, field = "places." ++ name /\ FIELD_COSTS !! name = Some price.

(** The body of a reply that the loop takes as a page: the status is not
    4xx or 5xx, the body decodes to a JSON object, and its [places] member,
    when there is one, is an array. *)
Definition page_body (reply : Reply) : option py :=
  match reply with
  | NoResponse _ => None
  | Responded r =>
      if is_error_status r then None
      else
        match r.(json) with
        | Some (PDict items) =>
            match dict_lookup "places" items with
            | None | Some (PList _) => Some (PDict items)
            | Some _ => None
            end
        | _ => None
        end
  end.

(** The record list of a page. *)
Definition page_places (body : py) : list py :=
  match body with
  | PDict items =>
      match dict_lookup "places" items with Some (PList xs) => xs | _ => [] end
  | _ => []
  end.

(** The continuation token of a page, [PNone] when it has none. *)
Definition page_token (body : py) : py :=
  match body with
  | PDict items => from_option id PNone (dict_lookup "nextPageToken" items)
  | _ => PNone
  end.

(** A page carries a continuation token when the loop's test [if
    next_page_token] accepts it: the member is there and is not empty. *)
Definition carries_token (body : py) : bool := truthy (page_token body).

(** The payload of a request that follows up on [token]. *)
Definition request (latitude longitude radius : float)
    (include_types : option (list string)) (token : py) : py :=
  PDict (build_payload latitude longitude radius include_types token).

(** The [pageToken] member of a posted payload. *)
Definition sent_token (payload : py) : option py :=
  match payload with
  | PDict items => dict_lookup "pageToken" items
  | _ => None
  end.

(** A fetch that fails at the transport level: [requests.post] raises
    (connection error, timeout), or the status is 4xx or 5xx. *)
Definition transport_failure (reply : Reply) : bool :=
  match reply with
  | NoResponse _ => true
  | Responded r => is_error_status r
  end.

(** A reply received with a success status and decoded. *)
Definition parsed (reply : Reply) : bool :=
  match reply with
  | NoResponse _ => false
  | Responded r =>
      negb (is_error_status r)
      && match r.(json) with Some _ => true | None => false end
  end.

(** The loop state after the page [body] has been taken in. *)
Definition after_page (st : LoopState) (body : py) : LoopState :=
  {| all_places := st.(all_places) ++ page_places body;
     next_page_token := page_token body;
     request_count := st.(request_count) + 1 |}.

(** [w'] differs from [w] by printed lines only. *)
Definition only_prints (w w' : World) : Prop :=
  w'.(files) = w.(files) /\ w'.(posted) = w.(posted).

(** ** Vocabulary of the exporter *)

Definition is_str (v : py) : bool :=
  match v with PStr _ => true | _ => false end.

Definition is_dict (v : py) : bool :=
  match v with PDict _ => true | _ => false end.

Definition is_str_list (v : py) : bool :=
  match v with PList ts => forallb is_str ts | _ => false end.

Definition absent_or (shape : py -> bool) (member : option py) : bool :=
  match member with None => true | Some v => shape v end.

(** A Place Record: a JSON object whose members, where the exporter takes
    them apart, have the shape the service gives them: [displayName] and
    [location] are objects, [types] is an array of strings.  Every member
    may be absent. *)
Definition place_record (place : py) : bool :=
  match place with
  | PDict items =>
      absent_or is_dict (dict_lookup "displayName" items)
      && absent_or is_dict (dict_lookup "location" items)
      && absent_or is_str_list (dict_lookup "types" items)
  | _ => false
  end.

(** Where a column takes its value from in a record. *)
Inductive Source : Type :=
| Member (name : string)
| Nested (outer inner : string).

Definition column_source (data_level column : string) : option Source :=
  if column =? "place_id" then Some (Member "id")
  else if column =? "name" then Some (Nested "displayName" "text")
  else if column =? "address" then Some (Member "formattedAddress")
  else if column =? "latitude" then Some (Nested "location" "latitude")
  else if column =? "longitude" then Some (Nested "location" "longitude")
  else if column =? "types" then Some (Member "types")
  else if column =? "primary_type" then Some (Member "primaryType")
  else if column =? "google_maps_url" then
    if data_level =? "id_only" then None else Some (Member "googleMapsUri")
  else if column =? "rating" then Some (Member "rating")
  else if column =? "user_ratings_total" then Some (Member "userRatingCount")
  else if column =? "phone_national" then Some (Member "nationalPhoneNumber")
  else if column =? "phone_international" then Some (Member "internationalPhoneNumber")
  else if column =? "website" then Some (Member "websiteUri")
  else if column =? "business_status" then Some (Member "businessStatus")
  else None.

(** The record does not have the member, or not the nested object, or the
    nested object does not have the inner member. *)
Definition missing (place : py) (src : Source) : bool :=
  match place, src with
  | PDict items, Member name =>
      match dict_lookup name items with None => true | Some _ => false end
  | PDict items, Nested outer inner =>
      match dict_lookup outer items with
      | None => true
      | Some (PDict obj) =>
          match dict_lookup inner obj with None => true | Some _ => false end
      | Some _ => false
      end
  | _, _ => false
  end.

Definition recognized (data_level : string) : Prop :=
  data_level = "id_only" \/ data_level = "basic" \/ data_level = "advanced".

(** The world after [content] has been written to [path] and [printed]
    has been printed. *)
Definition exported (path content : string) (printed : list string) (w : World)
  : World :=
  {| files := <[path := content]> w.(files);
     stdout := w.(stdout) ++ printed;
     posted := w.(posted) |}.

(** The header line of a data level. *)
Definition header_line (data_level : string) : string :=
  str_join "," (csv_fieldnames data_level) ++ CRLF.

(** [items.get(name, "")]. *)
Definition member (items : list (string * py)) (name : string) : py :=
  from_option id (PStr "") (dict_lookup name items).

(** [items.get(outer, {}).get(inner, "")] when [outer] is absent or an
    object. *)
Definition nested_member (items : list (string * py)) (outer inner : string) : py :=
  match dict_lookup outer items with
  | Some (PDict obj) => member obj inner
  | _ => PStr ""
  end.

(** The cells of a row, in column order, are empty wherever the column's
    source is missing from the record. *)
Definition empty_where_missing (data_level : string) (place : py)
    (cells : list py) : Prop :=
  length cells = length (csv_fieldnames data_level)
  /\ forall (i : nat) (column : string) (src : Source),
       csv_fieldnames data_level !! i = Some column ->
       column_source data_level column = Some src ->
       missing place src = true ->
       cells !! i = Some (PStr "").

(** The claim as the specification words it: whenever the record has no
    [googleMapsUri], the map-link column is the link made of the record
    identifier. *)
Definition map_link_synthesized (py_str : py -> string) (self : PlacesSearcher)
    (place : py) : Prop :=
  missing place (Member "googleMapsUri") = true ->
  exists row place_id,
    assign_row py_str self place None = Ok (Some row)
    /\ py_get place "id" (PStr "") = Ok place_id
    /\ dict_lookup "google_maps_url" row
       = Some (PStr (MAPS_URL ++ py_format py_str place_id)).

(** ** The line a Place Record is exported as *)

(** The text the map link of the [id_only] level ends in: the identifier
    itself when it is a string, nothing when the record has none, and
    [str] of the member otherwise. *)
Definition identifier_text (py_str : py -> string) (items : list (string * py))
  : string :=
  match dict_lookup "id" items with
  | Some (PStr s) => s
  | Some v => py_str v
  | None => ""
  end.

(** The [types] column: the strings of the array, joined by a comma and a
    space; empty when the record has no array. *)
Definition types_text (items : list (string * py)) : string :=
  match dict_lookup "types" items with
  | Some (PList ts) =>
      str_join ", " (map (fun t => match t with PStr s => s | _ => "" end) ts)
  | _ => ""
  end.

(** The value of a column for a Place Record: the joined [types], the map
    link of the [id_only] level, and otherwise the member, or the member of
    the nested object, that the column reads, empty when it is not there. *)
Definition cell (py_str : py -> string) (data_level : string)
    (items : list (string * py)) (column : string) : py :=
  if column =? "types" then PStr (types_text items)
  else
    match column_source data_level column with
    | Some (Member name) => member items name
    | Some (Nested outer inner) => nested_member items outer inner
    | None => PStr (MAPS_URL ++ identifier_text py_str items)
    end.

(** The cells of a record, column by column, and the line they make. *)
Definition record_cells (py_str : py -> string) (data_level : string) (place : py)
  : list py :=
  match place with
  | PDict items => map (cell py_str data_level items) (csv_fieldnames data_level)
  | _ => []
  end.

Definition record_line (py_str : py -> string) (data_level : string) (place : py)
  : string :=
  writer_writerow py_str (record_cells py_str data_level place).

(** ** Sample data *)

(** A stand-in for [str] and [json.dumps] in the sample runs. *)
Definition sample_str (v : py) : string :=
  match v with
  | PNone => "None"
  | PBool true => "True"
  | PBool false => "False"
  | PInt n => pretty n
  | _ => "?"
  end.

Definition sample_4f (x : float) : string := "0.0000".

Definition sample_error (k : RequestKind) (r : Response) : string :=
  pretty r.(status_code) ++ " Error".

Definition sample_world : World :=
  {| files := ∅; stdout := []; posted := [] |}.

(** A file system without the directory [nodir]. *)
Definition sample_fs (path : string) : bool :=
  negb (String.prefix "nodir/" path).

Definition sample_place1 : py :=
  PDict [ ("id", PStr "ChIJ1");
          ("displayName", PDict [("text", PStr "Cafe Uno")]);
          ("types", PList [PStr "cafe"; PStr "food"]) ].

Definition sample_place2 : py := PDict [("id", PStr "ChIJ2")].

Definition sample_page1 : py :=
  PDict [("places", PList [sample_place1]); ("nextPageToken", PStr "tok1")].

Definition sample_page2 : py := PDict [("places", PList [sample_place2])].

Definition sample_reply (body : py) : Reply :=
  Responded {| status_code := 200; response_headers := PDict [];
               text := ""; json := Some body |}.

Definition sample_failure : Reply :=
  Responded {| status_code := 503; response_headers := PDict [];
               text := "unavailable"; json := None |}.

Definition sample_searcher : PlacesSearcher :=
  PlacesSearcher_init "KEY" "basic" false.

Definition sample_args : Args.t :=
  {| Args.lat := 40.5; Args.lng := -74.25; Args.radius := 500;
     Args.category := Some "cafe"; Args.output := Some "out.csv";
     Args.data_level := "basic"; Args.debug := false |}.

(** ** Vocabulary of the further properties *)

(** The part of a payload that is the same in every request of a run: the
    circle, the page size, the ranking, and the type filter when
    [include_types] is a non-empty list; no other member but [pageToken]. *)
Definition fixed_filter (latitude longitude radius : float)
    (include_types : option (list string)) (payload : py) : Prop :=
  exists items,
    payload = PDict items
    /\ dict_lookup "locationRestriction" items
       = Some (PDict [ ("circle",
                        PDict [ ("center",
                                 PDict [ ("latitude", PFloat latitude);
                                         ("longitude", PFloat longitude) ]);
                                ("radius", PFloat radius) ]) ])
    /\ dict_lookup "maxResultCount" items = Some (PInt 20)
    /\ dict_lookup "rankPreference" items = Some (PStr "DISTANCE")
    /\ dict_lookup "includedTypes" items
       = match include_types with
         | Some (t :: ts) => Some (PList (map PStr (t :: ts)))
         | _ => None
         end
    /\ Forall (fun kv => In (fst kv) ["locationRestriction"; "maxResultCount";
                                      "includedTypes"; "rankPreference";
                                      "pageToken"]) items.

(** The exception a decoded body raises in the loop, outside the [except]
    clause: a body that is not a JSON object has no [get]; a [places]
    member that is null, a boolean or a number cannot extend a list. *)
Definition body_error (reply : Reply) : option exn :=
  match reply with
  | NoResponse _ => None
  | Responded r =>
      if is_error_status r then None
      else
        match r.(json) with
        | None => None
        | Some (PDict items) =>
            match dict_lookup "places" items with
            | Some PNone | Some (PBool _) | Some (PInt _) | Some (PFloat _) =>
                Some TypeError
            | _ => None
            end
        | Some _ => Some AttributeError
        end
  end.

(** The [includedTypes] member of a posted payload. *)
Definition sent_types (payload : py) : option py :=
  match payload with
  | PDict items => dict_lookup "includedTypes" items
  | _ => None
  end.

(** Every byte of [s] passes [ok]. *)
Fixpoint all_bytes (ok : ascii -> bool) (s : string) : bool :=
  match s with
  | "" => true
  | String c s' => ok c && all_bytes ok s'
  end.

(** A byte of a place type as it is typed on the command line: printable
    ASCII other than the space and the comma. *)
Definition name_byte (c : ascii) : bool :=
  let n := nat_of_ascii c in ((33 <=? n) && (n <? 127) && negb (n =? 44))%nat.

Definition type_name (s : string) : bool :=
  match s with "" => false | _ => all_bytes name_byte s end.

(** A type name with blanks typed before and after it. *)
Definition padded (entry : nat * string * nat) : string :=
  let '(before, name, after) := entry in
  str_repeat " " before ++ name ++ str_repeat " " after.

Definition entry_name (entry : nat * string * nat) : string := snd (fst entry).

(** The bytes of a string, each as a string of its own. *)
Fixpoint singles (s : string) : list string :=
  match s with
  | "" => []
  | String c s' => String c "" :: singles s'
  end.

(** Two records agree on every member that the field mask of the data level
    asks the service for. *)
Definition same_requested (data_level : string) (place1 place2 : py) : Prop :=
  exists items1 items2,
    place1 = PDict items1 /\ place2 = PDict items2
    /\ forall name : string,
         In ("places." ++ name) (mask_fields data_level) ->
         dict_lookup name items1 = dict_lookup name items2.

(** * Properties *)

(** ** Sample runs of the string functions and the cost estimate *)

Example str_split_mask :
  str_split "," "places.id,places.displayName" = ["places.id"; "places.displayName"].
Proof. reflexivity. Qed.

Example str_replace_prefix : str_replace "places." "" "places.id" = "id".
Proof. reflexivity. Qed.

Example str_strip_ex : str_strip "  cafe " = "cafe".
Proof. vm_compute. reflexivity. Qed.

Example cost_basic k :
  calculate_request_cost (PlacesSearcher_init k "basic" false) = Ok 0.017%float.
Proof. vm_compute. reflexivity. Qed.

Example cost_advanced k :
  calculate_request_cost (PlacesSearcher_init k "advanced" false)
  = Ok 0.046999999999999993%float.
Proof. vm_compute. reflexivity. Qed.

(** ** The data level decides the field list *)

Lemma mask_fields_cases (lvl : string) :
  lvl = "id_only" \/ lvl = "basic" \/ lvl = "advanced"
  \/ (lvl <> "id_only" /\ lvl <> "basic" /\ lvl <> "advanced"
      /\ mask_fields lvl = mask_fields "id_only").
Proof.
  unfold mask_fields.
  destruct (String.eqb_spec lvl "id_only") as [-> | H1]; [now left |].
  destruct (String.eqb_spec lvl "basic") as [-> | H2]; [now right; left |].
  destruct (String.eqb_spec lvl "advanced") as [-> | H3]; [now right; right; left |].
  right; right; right. repeat split; assumption.
Qed.

Lemma priced_intro (name : string) (price : float) :
  FIELD_COSTS !! name = Some price -> priced ("places." ++ name) price.
Proof. intros H. exists name. split; [reflexivity | exact H]. Qed.

Ltac price_fields :=
  repeat (constructor; [apply priced_intro; vm_compute; reflexivity |]);
  constructor.

(** C2. For every data level, recognised or not, the estimate of
    [calculate_request_cost] on a client built for it is the base price to
    which the table price of every field of the level's mask, and of nothing
    else, has been added in mask order (binary64 additions, left to right).
    At [id_only] this is the base price itself; at [advanced] it is the base
    price plus the 0.005 increment once for each of its six advanced
    fields. *)
Theorem calculate_request_cost_sums_mask (key lvl : string) (dbg : bool) :
  (exists prices : list float,
      Forall2 priced (mask_fields lvl) prices
      /\ calculate_request_cost (PlacesSearcher_init key lvl dbg)
         = Ok (fold_left PrimFloat.add prices BASE_NEARBY_SEARCH_COST))
  /\ calculate_request_cost (PlacesSearcher_init key "id_only" dbg)
     = Ok BASE_NEARBY_SEARCH_COST
  /\ calculate_request_cost (PlacesSearcher_init key "advanced" dbg)
     = Ok (BASE_NEARBY_SEARCH_COST
           + 0.005 + 0.005 + 0.005 + 0.005 + 0.005 + 0.005)%float.
Proof.
  split; [| split; vm_compute; reflexivity].
  assert (Hcost : forall l, mask_fields l = mask_fields lvl ->
            calculate_request_cost (PlacesSearcher_init key lvl dbg)
            = calculate_request_cost (PlacesSearcher_init key l dbg)).
  { intros l Hl. unfold calculate_request_cost, PlacesSearcher_init, _get_field_mask.
    cbn. now rewrite Hl. }
  destruct (mask_fields_cases lvl) as [-> | [-> | [-> | (_ & _ & _ & Hm)]]].
  - exists [0.0; 0.0]%float. split; [price_fields | vm_compute; reflexivity].
  - exists [0.0; 0.0; 0.0; 0.0; 0.0; 0.0; 0.0]%float.
    split; [price_fields | vm_compute; reflexivity].
  - exists [0.0; 0.0; 0.0; 0.0; 0.0; 0.0; 0.0;
            0.005; 0.005; 0.005; 0.005; 0.005; 0.005]%float.
    split; [price_fields | vm_compute; reflexivity].
  - exists [0.0; 0.0]%float. rewrite (Hcost "id_only" (eq_sym Hm)), Hm.
    split; [price_fields | vm_compute; reflexivity].
Qed.

(** ** Printing leaves the store and the requests alone *)

Lemma only_prints_refl (w : World) : only_prints w w.
Proof. split; reflexivity. Qed.

Ltac io_unfold :=
  unfold mbind, io_bind, result_bind, mret, io_ret, result_ret, lift, print,
    post, write, open_w, run in *.

(** ** One turn of the page-follow loop *)

Section Loop.

Variable py_str : py -> string.
Variable json_dumps : py -> string.
Variable error_message : RequestKind -> Response -> string.
Variable self : PlacesSearcher.
Variables latitude longitude radius : float.
Variable include_types : option (list string).

Let loop := search_loop py_str json_dumps error_message self
              latitude longitude radius include_types.
Let req := request latitude longitude radius include_types.
Let send (st : LoopState) (w : World) : World :=
  run (send_request json_dumps self (req st.(next_page_token))) w.

Lemma debug_request_only_prints (payload : py) (w : World) :
  exists w', debug_request json_dumps self payload w = (w', Ok tt)
             /\ only_prints w w'.
Proof.
  unfold debug_request, when. destruct (debug self).
  - eexists. split; [reflexivity | split; reflexivity].
  - eexists. split; [reflexivity | split; reflexivity].
Qed.

Lemma debug_raw_response_only_prints (r : Response) (w : World) :
  exists w', debug_raw_response py_str self r w = (w', Ok tt)
             /\ only_prints w w'.
Proof.
  unfold debug_raw_response, when. destruct (debug self).
  - eexists. split; [reflexivity | split; reflexivity].
  - eexists. split; [reflexivity | split; reflexivity].
Qed.


Lemma receive_page (reply : Reply) (body : py) (w : World) :
  page_body reply = Some body ->
  exists w', receive py_str error_message self reply w = (w', Ok (inr body))
             /\ only_prints w w'.
Proof.
  destruct reply as [e | r]; [discriminate |].
  unfold page_body, receive. intros H.
  destruct (debug_raw_response_only_prints r w) as (w' & Hd & Hw).
  exists w'. split; [| exact Hw].
  unfold mbind, io_bind. rewrite Hd.
  destruct (is_error_status r); [discriminate |].
  destruct (json r) as [[| | | | | |items] |]; try discriminate.
  destruct (dict_lookup "places" items) as [[]|]; try discriminate;
    injection H as <-; reflexivity.
Qed.

Lemma receive_cases (reply : Reply) (w : World) :
  exists w', only_prints w w' /\
    ((exists body, receive py_str error_message self reply w = (w', Ok (inr body))
                   /\ parsed reply = true)
     \/ (exists e, receive py_str error_message self reply w = (w', Ok (inl e))
                   /\ parsed reply = false)).
Proof.
  destruct reply as [e | r].
  - exists w. split; [apply only_prints_refl |]. right. exists e. split; reflexivity.
  - destruct (debug_raw_response_only_prints r w) as (w' & Hd & Hw).
    exists w'. split; [exact Hw |].
    unfold receive, parsed, mbind, io_bind. rewrite Hd.
    destruct (is_error_status r); [right; eexists; split; reflexivity |].
    destruct (json r) as [body |].
    + left. exists body. split; reflexivity.
    + right. eexists. split; reflexivity.
Qed.

Lemma accept_page_page (items : list (string * py)) (st : LoopState) (w : World) :
  match dict_lookup "places" items with None | Some (PList _) => True | _ => False end ->
  exists w',
    accept_page json_dumps self (PDict items) st w
    = (w', Ok {| all_places := st.(all_places) ++ page_places (PDict items);
                 next_page_token := page_token (PDict items);
                 request_count := st.(request_count) + 1 |})
    /\ only_prints w w'.
Proof.
  intros Hp. unfold accept_page, page_places, page_token, py_get, when.
  destruct (debug self); cbn;
    destruct (dict_lookup "places" items) as [[]|]; try contradiction; cbn;
    (eexists; split; [reflexivity | split; reflexivity]).
Qed.

Lemma accept_page_inv (body : py) (st st' : LoopState) (w w' : World) :
  accept_page json_dumps self body st w = (w', Ok st') ->
  st'.(request_count) = (st.(request_count) + 1)%Z /\ only_prints w w'.
Proof.
  unfold accept_page, when, py_get.
  destruct body as [| | | | | |items];
    try (destruct (debug self); io_unfold; cbn; discriminate).
  destruct (debug self); io_unfold; cbn;
    destruct (py_iter (from_option id (PList []) (dict_lookup "places" items)));
    cbn; intros H; try discriminate;
    injection H as <- <-; (split; [reflexivity | split; reflexivity]).
Qed.


Lemma send_posts (st : LoopState) (w : World) :
  (send st w).(files) = w.(files)
  /\ (send st w).(posted)
     = (w.(posted) ++ [request latitude longitude radius include_types
                         st.(next_page_token)])%list.
Proof.
  unfold send, send_request, run, mbind, io_bind.
  destruct (debug_request_only_prints (req st.(next_page_token)) w)
    as (w1 & -> & Hf & Hp).
  cbn. rewrite Hf, Hp. split; reflexivity.
Qed.

Lemma search_loop_step (reply : Reply) (script : list Reply) (st : LoopState) (w : World) :
  search_loop py_str json_dumps error_message self latitude longitude radius
    include_types (reply :: script) st w
  = match receive py_str error_message self reply (send st w) with
    | (w, Raise e) => (w, Some (Raise e))
    | (w, Ok (inl e)) => let (w, r) := request_failed e w in (w, Some r)
    | (w, Ok (inr result)) =>
        match accept_page json_dumps self result st w with
        | (w, Raise e) => (w, Some (Raise e))
        | (w, Ok st) =>
            if truthy st.(next_page_token)
            then search_loop py_str json_dumps error_message self latitude
                   longitude radius include_types script st w
            else (w, Some (Ok (st.(all_places), st.(request_count))))
        end
    end.
Proof. reflexivity. Qed.

Lemma search_loop_blocked (st : LoopState) (w : World) :
  search_loop py_str json_dumps error_message self latitude longitude radius
    include_types [] st w = (send st w, None).
Proof. reflexivity. Qed.



Lemma request_failed_exits {A} (e : RequestException) (w : World) :
  exists w', @request_failed A e w = (w', Raise (SystemExit 1)) /\ only_prints w w'.
Proof.
  unfold request_failed. io_unfold.
  destruct (response e); cbn; eexists; (split; [reflexivity | split; reflexivity]).
Qed.

Lemma loop_page_step (reply : Reply) (body : py) (script : list Reply)
    (st : LoopState) (w : World) :
  page_body reply = Some body ->
  exists w1,
    w1.(files) = w.(files)
    /\ w1.(posted) = (w.(posted) ++ [req st.(next_page_token)])%list
    /\ loop (reply :: script) st w
       = if carries_token body then loop script (after_page st body) w1
         else (w1, Some (Ok ((after_page st body).(all_places),
                             (after_page st body).(request_count)))).
Proof.
  intros Hb. unfold loop. rewrite search_loop_step.
  destruct (receive_page reply body (send st w) Hb) as (w1 & -> & Hf1 & Hp1).
  assert (Hitems : exists items, body = PDict items
            /\ match dict_lookup "places" items with
               | None | Some (PList _) => True | _ => False end).
  { destruct reply as [e | r]; [discriminate |]. unfold page_body in Hb.
    destruct (is_error_status r); [discriminate |].
    destruct (json r) as [[| | | | | |items] |]; try discriminate.
    exists items. destruct (dict_lookup "places" items) as [[]|];
      try discriminate; injection Hb as <-; split; trivial. }
  destruct Hitems as (items & -> & Hpl).
  destruct (accept_page_page items st w1 Hpl) as (w2 & -> & Hf2 & Hp2).
  destruct (send_posts st w) as [Hf0 Hp0].
  exists w2. split; [congruence |]. split; [unfold req; congruence |].
  reflexivity.
Qed.

Lemma loop_failure_step (reply : Reply) (script : list Reply)
    (st : LoopState) (w : World) :
  transport_failure reply = true ->
  exists w1,
    loop (reply :: script) st w = (w1, Some (Raise (SystemExit 1)))
    /\ w1.(files) = w.(files)
    /\ w1.(posted) = (w.(posted) ++ [req st.(next_page_token)])%list.
Proof.
  intros Hfail. unfold loop. rewrite search_loop_step.
  destruct (send_posts st w) as [Hf0 Hp0].
  destruct reply as [e | r]; cbn in Hfail.
  - cbn. destruct (request_failed_exits (A := list py * Z) e (send st w))
      as (w1 & -> & Hf1 & Hp1).
    exists w1. split; [reflexivity |]. split; unfold req; congruence.
  - unfold receive. io_unfold.
    destruct (debug_raw_response_only_prints r (send st w))
      as (w1 & -> & Hf1 & Hp1).
    rewrite Hfail.
    match goal with |- context [request_failed ?e w1] =>
      destruct (request_failed_exits (A := list py * Z) e w1) as (w2 & Hrf & Hf2 & Hp2)
    end.
    cbn in Hrf |- *. rewrite Hrf.
    exists w2. split; [reflexivity |]. split; unfold req; congruence.
Qed.

Lemma loop_follows_pages (pages : list Reply) (bodies : list py) :
  Forall2 (fun reply body => page_body reply = Some body /\ carries_token body = true)
    pages bodies ->
  forall (last : Reply) (final : py) (rest : list Reply) (st : LoopState) (w : World),
    page_body last = Some final ->
    carries_token final = false ->
    exists w',
      loop (pages ++ last :: rest) st w
      = (w', Some (Ok ((st.(all_places) ++ concat (map page_places (bodies ++ [final])))%list,
                       (st.(request_count) + Z.of_nat (length pages) + 1)%Z)))
      /\ w'.(files) = w.(files)
      /\ w'.(posted)
         = (w.(posted) ++ map req (st.(next_page_token) :: map page_token bodies))%list.
Proof.
  induction 1 as [| reply body pages bodies [Hb Ht] _ IH];
    intros last final rest st w Hlast Hfinal.
  - destruct (loop_page_step last final rest st w Hlast) as (w1 & Hf & Hp & Hl).
    rewrite Hfinal in Hl. exists w1. cbn [app length map concat].
    rewrite Hl. cbn. rewrite app_nil_r, Z.add_0_r. auto.
  - destruct (loop_page_step reply body (pages ++ last :: rest) st w Hb)
      as (w1 & Hf & Hp & Hl).
    rewrite Ht in Hl.
    destruct (IH last final rest (after_page st body) w1 Hlast Hfinal)
      as (w' & Hrun & Hf' & Hp').
    exists w'. cbn [app]. rewrite Hl, Hrun. cbn.
    rewrite <- !app_assoc. split; [do 4 f_equal; lia |].
    split; [congruence |]. rewrite Hp', Hp, <- app_assoc. reflexivity.
Qed.

Lemma loop_aborts (pages : list Reply) (bodies : list py) :
  Forall2 (fun reply body => page_body reply = Some body /\ carries_token body = true)
    pages bodies ->
  forall (failure : Reply) (rest : list Reply) (st : LoopState) (w : World),
    transport_failure failure = true ->
    exists w',
      loop (pages ++ failure :: rest) st w = (w', Some (Raise (SystemExit 1)))
      /\ w'.(files) = w.(files)
      /\ w'.(posted)
         = (w.(posted) ++ map req (st.(next_page_token) :: map page_token bodies))%list.
Proof.
  induction 1 as [| reply body pages bodies [Hb Ht] _ IH];
    intros failure rest st w Hfail.
  - destruct (loop_failure_step failure rest st w Hfail) as (w1 & Hl & Hf & Hp).
    exists w1. cbn [app map]. auto.
  - destruct (loop_page_step reply body (pages ++ failure :: rest) st w Hb)
      as (w1 & Hf & Hp & Hl).
    rewrite Ht in Hl.
    destruct (IH failure rest (after_page st body) w1 Hfail) as (w' & Hrun & Hf' & Hp').
    exists w'. cbn [app]. rewrite Hl, Hrun. split; [reflexivity |].
    split; [congruence |]. rewrite Hp', Hp, <- app_assoc. reflexivity.
Qed.

Lemma loop_returns (script : list Reply) :
  forall (st : LoopState) (w w' : World) (places : list py) (n : Z),
    loop script st w = (w', Some (Ok (places, n))) ->
    exists used rest,
      script = (used ++ rest)%list
      /\ used <> []
      /\ Forall (fun reply => parsed reply = true) used
      /\ n = (st.(request_count) + Z.of_nat (length used))%Z
      /\ w'.(files) = w.(files)
      /\ length w'.(posted) = (length w.(posted) + length used)%nat.
Proof.
  induction script as [| reply script IH]; intros st w w' places n Hrun.
  - discriminate.
  - unfold loop in Hrun. rewrite search_loop_step in Hrun.
    destruct (send_posts st w) as [Hf0 Hp0].
    destruct (receive_cases reply (send st w))
      as (w1 & [Hf1 Hp1] & [(body & Hr & Hparsed) | (e & Hr & _)]);
      rewrite Hr in Hrun.
    + destruct (accept_page json_dumps self body st w1) as [w2 [st2 | e]] eqn:Ha;
        [| discriminate].
      destruct (accept_page_inv body st st2 w1 w2 Ha) as (Hc & Hf2 & Hp2).
      destruct (truthy (next_page_token st2)).
      * destruct (IH st2 w2 w' places n Hrun)
          as (used & rest & -> & _ & Hall & -> & Hf' & Hp').
        exists (reply :: used), rest. split; [reflexivity |].
        split; [discriminate |]. split; [constructor; assumption |].
        split; [cbn [length]; lia |]. split; [congruence |].
        rewrite Hp', Hp2, Hp1, Hp0, length_app. cbn [length]. lia.
      * injection Hrun as <- <- <-.
        exists [reply], script. split; [reflexivity |].
        split; [discriminate |]. split; [repeat constructor; assumption |].
        split; [cbn [length]; lia |]. split; [congruence |].
        rewrite Hp2, Hp1, Hp0, length_app. reflexivity.
    + destruct (request_failed_exits (A := list py * Z) e w1) as (w2 & Hrf & _).
      rewrite Hrf in Hrun. discriminate.
Qed.

End Loop.

(** ** The token a request carries *)

Lemma sent_token_request (latitude longitude radius : float)
    (include_types : option (list string)) (token : py) :
  sent_token (request latitude longitude radius include_types token)
  = if truthy token then Some token else None.
Proof.
  unfold sent_token, request, build_payload.
  destruct include_types as [[| t ts] |]; destruct (truthy token); reflexivity.
Qed.

Lemma later_requests_carry_tokens (latitude longitude radius : float)
    (include_types : option (list string)) (pages : list Reply) (bodies : list py) :
  Forall2 (fun reply body => page_body reply = Some body /\ carries_token body = true)
    pages bodies ->
  Forall2 (fun body payload => sent_token payload = Some (page_token body)) bodies
    (map (request latitude longitude radius include_types) (map page_token bodies)).
Proof.
  induction 1 as [| reply body pages bodies [_ Ht] _ IH]; cbn [map].
  - constructor.
  - constructor; [| exact IH].
    rewrite sent_token_request. unfold carries_token in Ht. now rewrite Ht.
Qed.

(** C1. A run of [search_nearby] whose replies start with N pages, the N-th
    being the first that carries no continuation token (N is
    [length pages + 1]), returns after exactly N requests, whatever replies
    the script holds beyond them.  The first request has no [pageToken];
    every later request carries the token of the page just before it, in an
    otherwise identical payload; the list returned is the concatenation of
    the N pages' record lists in the order received, and the count returned
    is N.  A token counts as carried when the loop's own test accepts it: the
    member is present and not empty. *)
Theorem search_nearby_follows_pages
    (py_str json_dumps : py -> string)
    (error_message : RequestKind -> Response -> string)
    (self : PlacesSearcher) (latitude longitude radius : float)
    (keyword : option string) (include_types : option (list string))
    (pages : list Reply) (bodies : list py) (last : Reply) (final : py)
    (rest : list Reply) (w : World) :
  Forall2 (fun reply body => page_body reply = Some body /\ carries_token body = true)
    pages bodies ->
  page_body last = Some final ->
  carries_token final = false ->
  exists (w' : World) (first : py) (later : list py),
    search_nearby py_str json_dumps error_message self latitude longitude radius
      keyword include_types (pages ++ last :: rest)%list w
    = (w', Some (Ok (concat (map page_places (bodies ++ [final])%list),
                     (Z.of_nat (length pages) + 1)%Z)))
    /\ w'.(posted) = (w.(posted) ++ first :: later)%list
    /\ length (first :: later) = (length pages + 1)%nat
    /\ first :: later
       = map (request latitude longitude radius include_types)
           (PNone :: map page_token bodies)
    /\ sent_token first = None
    /\ Forall2 (fun body payload => sent_token payload = Some (page_token body))
         bodies later.
Proof.
  intros Hpages Hlast Hfinal.
  destruct (loop_follows_pages py_str json_dumps error_message self latitude
              longitude radius include_types pages bodies Hpages last final rest
              {| all_places := []; next_page_token := PNone; request_count := 0 |}
              w Hlast Hfinal) as (w' & Hrun & _ & Hposted).
  exists w', (request latitude longitude radius include_types PNone),
    (map (request latitude longitude radius include_types) (map page_token bodies)).
  split; [exact Hrun |]. split; [exact Hposted |].
  split.
  { cbn [length]. rewrite !length_map, <- (Forall2_length _ _ _ Hpages). lia. }
  split; [reflexivity |].
  split; [apply sent_token_request |].
  eapply later_requests_carry_tokens; eassumption.
Qed.

Lemma search_nearby_follows_pages_witness :
  exists (w' : World) (first : py) (later : list py),
    search_nearby sample_str sample_str sample_error sample_searcher
      40.5 (-74.25) 500 None (Some ["cafe"])
      ([sample_reply sample_page1] ++ sample_reply sample_page2 :: [sample_failure])%list
      sample_world
    = (w', Some (Ok (concat (map page_places ([sample_page1] ++ [sample_page2])%list),
                     (Z.of_nat (length [sample_reply sample_page1]) + 1)%Z)))
    /\ w'.(posted) = (sample_world.(posted) ++ first :: later)%list
    /\ length (first :: later) = (length [sample_reply sample_page1] + 1)%nat
    /\ first :: later
       = map (request 40.5 (-74.25) 500 (Some ["cafe"]))
           (PNone :: map page_token [sample_page1])
    /\ sent_token first = None
    /\ Forall2 (fun body payload => sent_token payload = Some (page_token body))
         [sample_page1] later.
Proof.
  apply (search_nearby_follows_pages sample_str sample_str sample_error
           sample_searcher 40.5 (-74.25) 500 None (Some ["cafe"])
           [sample_reply sample_page1] [sample_page1]
           (sample_reply sample_page2) sample_page2 [sample_failure] sample_world).
  - constructor; [split; reflexivity | constructor].
  - reflexivity.
  - reflexivity.
Defined.

(** ** The driver *)

Lemma calculate_request_cost_total (key lvl : string) (dbg : bool) :
  exists cost, calculate_request_cost (PlacesSearcher_init key lvl dbg) = Ok cost.
Proof. eexists. unfold calculate_request_cost. cbn. reflexivity. Qed.

Lemma main_setup_ok (py_str : py -> string) (format_4f : float -> string)
    (args : Args.t) (key timestamp : string) (w : World) :
  key <> "" ->
  exists w1 cost,
    main_setup py_str format_4f args (Some key) timestamp w
    = (w1, Ok (PlacesSearcher_init key args.(Args.data_level) args.(Args.debug),
               cost, parse_categories args.(Args.category),
               output_path args.(Args.output) timestamp))
    /\ calculate_request_cost
         (PlacesSearcher_init key args.(Args.data_level) args.(Args.debug))
       = Ok cost
    /\ only_prints w w1.
Proof.
  intros Hkey. destruct key as [| c k]; [contradiction |].
  destruct (calculate_request_cost_total (String c k) args.(Args.data_level)
              args.(Args.debug)) as (cost & Hcost).
  unfold main_setup. io_unfold. rewrite Hcost. cbn.
  eexists _, cost. split; [reflexivity |]. split; [reflexivity |].
  split; reflexivity.
Qed.

Lemma main_report_prints_total (py_str : py -> string) (format_4f : float -> string)
    (can_open : string -> bool) (searcher : PlacesSearcher) (cost : float) (output : string)
    (places : list py) (n : Z) (w w' : World) :
  main_report py_str format_4f can_open searcher cost output places n w = (w', Ok tt) ->
  In ("Estimated total cost: $" ++ format_4f (total_cost cost n) ++ " USD")
    w'.(stdout).
Proof.
  unfold main_report. io_unfold.
  destruct (save_to_csv py_str can_open searcher places output w) as [w1 [[] | e]];
    cbn; intros H; [| discriminate].
  injection H as <-. cbn. rewrite !in_app_iff. cbn. tauto.
Qed.

(** C3. A run of [main] with a credential, in which any number of pages with
    continuation tokens is followed by a fetch that fails at the transport
    level ([requests.post] raises, or the status is 4xx or 5xx), ends in
    [SystemExit(1)]: the exit status is not zero, the file store is left as
    it was (nothing is exported from the pages already accumulated), and the
    failed request is the last one posted: one request per page and the
    failed one, none repeated, although the script holds further replies. *)
Theorem transport_failure_aborts_run
    (py_str json_dumps : py -> string) (format_4f : float -> string)
    (error_message : RequestKind -> Response -> string)
    (can_open : string -> bool) (args : Args.t) (key timestamp : string)
    (pages : list Reply) (bodies : list py) (failure : Reply)
    (rest : list Reply) (w : World) :
  key <> "" ->
  Forall2 (fun reply body => page_body reply = Some body /\ carries_token body = true)
    pages bodies ->
  transport_failure failure = true ->
  exists (w' : World) (r : result unit),
    main py_str json_dumps format_4f error_message can_open args (Some key) timestamp
      (pages ++ failure :: rest)%list w = (w', Some r)
    /\ r = Raise (SystemExit 1)
    /\ exit_status r <> 0%Z
    /\ w'.(files) = w.(files)
    /\ w'.(posted)
       = (w.(posted)
          ++ map (request args.(Args.lat) args.(Args.lng) args.(Args.radius)
                    (parse_categories args.(Args.category)))
               (PNone :: map page_token bodies))%list
    /\ length (PNone :: map page_token bodies) = (length pages + 1)%nat.
Proof.
  intros Hkey Hpages Hfail.
  destruct (main_setup_ok py_str format_4f args key timestamp w Hkey)
    as (w1 & cost & Hsetup & _ & Hf1 & Hp1).
  destruct (loop_aborts py_str json_dumps error_message
              (PlacesSearcher_init key args.(Args.data_level) args.(Args.debug))
              args.(Args.lat) args.(Args.lng) args.(Args.radius)
              (parse_categories args.(Args.category)) pages bodies Hpages
              failure rest
              {| all_places := []; next_page_token := PNone; request_count := 0 |}
              w1 Hfail) as (w' & Hrun & Hf' & Hp').
  exists w', (Raise (SystemExit 1)).
  split.
  { unfold main, search_nearby. rewrite Hsetup, Hrun. reflexivity. }
  split; [reflexivity |]. split; [discriminate |].
  split; [congruence |]. split; [rewrite Hp', Hp1; reflexivity |].
  cbn [length]. rewrite length_map, <- (Forall2_length _ _ _ Hpages). lia.
Qed.

Lemma transport_failure_aborts_run_witness :
  exists (w' : World) (r : result unit),
    main sample_str sample_str sample_4f sample_error sample_fs sample_args (Some "KEY")
      "20240101_000000"
      ([sample_reply sample_page1] ++ sample_failure :: [sample_reply sample_page2])%list
      sample_world = (w', Some r)
    /\ r = Raise (SystemExit 1)
    /\ exit_status r <> 0%Z
    /\ w'.(files) = sample_world.(files)
    /\ w'.(posted)
       = (sample_world.(posted)
          ++ map (request sample_args.(Args.lat) sample_args.(Args.lng)
                    sample_args.(Args.radius)
                    (parse_categories sample_args.(Args.category)))
               (PNone :: map page_token [sample_page1]))%list
    /\ length (PNone :: map page_token [sample_page1])
       = (length [sample_reply sample_page1] + 1)%nat.
Proof.
  apply (transport_failure_aborts_run sample_str sample_str sample_4f sample_error
           sample_fs sample_args "KEY" "20240101_000000" [sample_reply sample_page1]
           [sample_page1] sample_failure [sample_reply sample_page2] sample_world).
  - discriminate.
  - constructor; [split; reflexivity | constructor].
  - reflexivity.
Defined.

(** C9. When [search_nearby] returns normally with the count [n], it has
    consumed a non-empty prefix [used] of the script, every reply of which
    was received with a status that is not 4xx or 5xx and was decoded; [n]
    is the length of that prefix, so at least 1, and as many requests were
    posted.  No failed reply is part of a run that returns.  The total that
    the report of [main] prints is the estimate per request times that
    number. *)
Theorem request_count_counts_parsed_replies
    (py_str json_dumps : py -> string) (format_4f : float -> string)
    (error_message : RequestKind -> Response -> string)
    (self : PlacesSearcher) (latitude longitude radius : float)
    (keyword : option string) (include_types : option (list string))
    (script : list Reply) (w w' : World) (places : list py) (n : Z) :
  search_nearby py_str json_dumps error_message self latitude longitude radius
    keyword include_types script w = (w', Some (Ok (places, n))) ->
  (1 <= n)%Z
  /\ exists used rest : list Reply,
       script = (used ++ rest)%list
       /\ Forall (fun reply => parsed reply = true) used
       /\ n = Z.of_nat (length used)
       /\ length w'.(posted) = (length w.(posted) + length used)%nat
       /\ forall (can_open : string -> bool) (searcher : PlacesSearcher)
                 (cost : float) (output : string) (w0 w1 : World),
            main_report py_str format_4f can_open searcher cost output places n w0
            = (w1, Ok tt) ->
            In ("Estimated total cost: $"
                ++ format_4f (cost * float_of_int (Z.of_nat (length used)))%float
                ++ " USD") w1.(stdout).
Proof.
  intros Hrun.
  destruct (loop_returns py_str json_dumps error_message self latitude longitude
              radius include_types script _ w w' places n Hrun)
    as (used & rest & Hscript & Hne & Hall & Hn & _ & Hposted).
  cbn in Hn.
  assert (Hlen : (1 <= length used)%nat).
  { destruct used; [contradiction | cbn; lia]. }
  split; [lia |].
  exists used, rest. repeat split; try assumption.
  intros can_open searcher cost output w0 w1 Hreport.
  apply main_report_prints_total in Hreport. subst n. exact Hreport.
Qed.

Lemma request_count_counts_parsed_replies_witness :
  (1 <= 2)%Z
  /\ exists used rest : list Reply,
       [sample_reply sample_page1; sample_reply sample_page2; sample_failure]
       = (used ++ rest)%list
       /\ Forall (fun reply => parsed reply = true) used
       /\ 2%Z = Z.of_nat (length used)
       /\ length (fst (search_nearby sample_str sample_str sample_error
                         sample_searcher 40.5 (-74.25) 500 None (Some ["cafe"])
                         [sample_reply sample_page1; sample_reply sample_page2;
                          sample_failure] sample_world)).(posted)
          = (length sample_world.(posted) + length used)%nat
       /\ forall (can_open : string -> bool) (searcher : PlacesSearcher)
                 (cost : float) (output : string) (w0 w1 : World),
            main_report sample_str sample_4f can_open searcher cost output
              [sample_place1; sample_place2] 2 w0 = (w1, Ok tt) ->
            In ("Estimated total cost: $"
                ++ sample_4f (cost * float_of_int (Z.of_nat (length used)))%float
                ++ " USD") w1.(stdout).
Proof.
  apply (request_count_counts_parsed_replies sample_str sample_str sample_4f
           sample_error sample_searcher 40.5 (-74.25) 500 None (Some ["cafe"])
           [sample_reply sample_page1; sample_reply sample_page2; sample_failure]
           sample_world).
  vm_compute. reflexivity.
Defined.

(** ** The exporter *)

Lemma str_app_nil_r (s : string) : s ++ "" = s.
Proof.
  induction s as [| c s IH]; [reflexivity |].
  change (String c s ++ "") with (String c (s ++ "")). now rewrite IH.
Qed.

Lemma str_app_assoc (s t u : string) : (s ++ t) ++ u = s ++ t ++ u.
Proof.
  induction s as [| c s IH]; [reflexivity |].
  change (String c ((s ++ t) ++ u) = String c (s ++ t ++ u)). now rewrite IH.
Qed.

Section Exporter.
Variable py_str : py -> string.
Variable can_open : string -> bool.
Variable self : PlacesSearcher.
Variable output_file : string.

(** The rows loop appends to the open file and touches nothing else. *)
Lemma write_rows_appends (fieldnames : list string) (places : list py) :
  forall (row : option (list (string * py))),
  exists (data : string) (r : result unit),
    forall (m : gmap string string) (content : string) (out : list string) (sent : list py),
      write_rows py_str self fieldnames output_file places row
        {| files := <[output_file := content]> m; stdout := out; posted := sent |}
      = ({| files := <[output_file := content ++ data]> m; stdout := out;
            posted := sent |}, r).
Proof.
  induction places as [| place places IH]; intros row.
  - exists "", (Ok tt). intros. cbn. 
    now rewrite str_app_nil_r.
  - destruct (assign_row py_str self place row) as [row' | e] eqn:Hrow.
    2:{ exists "", (Raise e). intros. cbn [write_rows]. io_unfold.
        rewrite Hrow. cbn. now rewrite str_app_nil_r. }
    destruct (read_row row') as [rowdict | e] eqn:Hread.
    2:{ exists "", (Raise e). intros. cbn [write_rows]. io_unfold.
        rewrite Hrow. cbn. rewrite Hread. now rewrite str_app_nil_r. }
    destruct (DictWriter_writerow py_str fieldnames rowdict) as [line | e] eqn:Hline.
    2:{ exists "", (Raise e). intros. cbn [write_rows]. io_unfold.
        rewrite Hrow. cbn. rewrite Hread, Hline. now rewrite str_app_nil_r. }
    destruct (IH row') as (data & r & Hrest).
    exists (line ++ data), r. intros. cbn [write_rows]. io_unfold.
    rewrite Hrow. cbn. rewrite Hread, Hline. cbn.
    rewrite alter_insert_eq, Hrest, str_app_assoc. reflexivity.
Qed.

Lemma member_missing (items : list (string * py)) (name : string) :
  missing (PDict items) (Member name) = true -> member items name = PStr "".
Proof.
  unfold missing, member. destruct (dict_lookup name items); [discriminate | reflexivity].
Qed.

Lemma nested_member_missing (items : list (string * py)) (outer inner : string) :
  missing (PDict items) (Nested outer inner) = true ->
  nested_member items outer inner = PStr "".
Proof.
  unfold missing, nested_member, member.
  destruct (dict_lookup outer items) as [[| | | | | | obj] |]; try reflexivity.
  destruct (dict_lookup inner obj); [discriminate | reflexivity].
Qed.

Lemma get_nested_record (items : list (string * py)) (outer inner : string) :
  absent_or is_dict (dict_lookup outer items) = true ->
  get_nested (PDict items) outer inner = Ok (nested_member items outer inner).
Proof.
  unfold get_nested, nested_member, py_get, absent_or.
  destruct (dict_lookup outer items) as [[| | | | | | obj] |];
    try discriminate; reflexivity.
Qed.

Lemma mapM_as_str (ts : list py) :
  forallb is_str ts = true -> exists parts, mapM as_str ts = Ok parts.
Proof.
  induction ts as [| [| | | | s | |] ts IH]; cbn; try discriminate.
  - eexists. reflexivity.
  - intros H. destruct (IH H) as (parts & Hparts).
    exists (s :: parts). rewrite Hparts. reflexivity.
Qed.

Lemma get_types_record (items : list (string * py)) :
  absent_or is_str_list (dict_lookup "types" items) = true ->
  exists joined,
    get_types (PDict items) = Ok (PStr joined)
    /\ (missing (PDict items) (Member "types") = true -> joined = "").
Proof.
  unfold get_types, py_get, py_join, absent_or, missing.
  destruct (dict_lookup "types" items) as [[| | | | | ts |] |]; try discriminate.
  - cbn [absent_or is_str_list]. intros H.
    destruct (mapM_as_str ts H) as (parts & Hparts).
    exists (str_join ", " parts). unfold mbind, result_bind, py_iter in *.
    cbn [from_option id]. rewrite Hparts.
    split; [reflexivity | discriminate].
  - intros _. exists "". split; reflexivity.
Qed.

(** The row of a record at the basic level: its eight cells, each empty when
    its source is missing. *)
Lemma basic_entries_record (items : list (string * py)) :
  place_record (PDict items) = true ->
  exists types,
    basic_entries (PDict items)
    = Ok [ ("place_id", member items "id");
           ("name", nested_member items "displayName" "text");
           ("address", member items "formattedAddress");
           ("latitude", nested_member items "location" "latitude");
           ("longitude", nested_member items "location" "longitude");
           ("types", PStr types);
           ("primary_type", member items "primaryType");
           ("google_maps_url", member items "googleMapsUri") ]
    /\ (missing (PDict items) (Member "types") = true -> types = "").
Proof.
  unfold place_record. intros H.
  apply andb_prop in H as [H Htypes]. apply andb_prop in H as [Hname Hloc].
  destruct (get_types_record items Htypes) as (types & Hget & Hmiss).
  exists types. split; [| exact Hmiss].
  unfold basic_entries.
  rewrite (get_nested_record items "displayName" "text" Hname),
    !(get_nested_record items "location" _ Hloc), Hget.
  reflexivity.
Qed.

Lemma advanced_entries_record (items : list (string * py)) :
  advanced_entries (PDict items)
  = Ok [ ("rating", member items "rating");
         ("user_ratings_total", member items "userRatingCount");
         ("phone_national", member items "nationalPhoneNumber");
         ("phone_international", member items "internationalPhoneNumber");
         ("website", member items "websiteUri");
         ("business_status", member items "businessStatus") ].
Proof. reflexivity. Qed.

Lemma eqb_false (s t : string) : s <> t -> (s =? t) = false.
Proof. intros H. now apply String.eqb_neq. Qed.

Lemma csv_fieldnames_unknown (lvl : string) :
  lvl <> "id_only" -> lvl <> "basic" -> lvl <> "advanced" ->
  csv_fieldnames lvl = ["place_id"].
Proof.
  intros H1 H2 H3. unfold csv_fieldnames.
  now rewrite (eqb_false _ _ H1), (eqb_false _ _ H2), (eqb_false _ _ H3).
Qed.

Lemma level_cases (lvl : string) :
  recognized lvl \/ (lvl <> "id_only" /\ lvl <> "basic" /\ lvl <> "advanced").
Proof.
  unfold recognized.
  destruct (String.eqb_spec lvl "id_only"); [tauto |].
  destruct (String.eqb_spec lvl "basic"); [tauto |].
  destruct (String.eqb_spec lvl "advanced"); tauto.
Qed.

(** The header is the comma-joined column list of the level. *)
Lemma writeheader_line (lvl : string) :
  DictWriter_writeheader py_str (csv_fieldnames lvl) = Ok (header_line lvl).
Proof.
  unfold header_line.
  destruct (level_cases lvl) as [[-> | [-> | ->]] | (H1 & H2 & H3)];
    [vm_compute; reflexivity .. |].
  rewrite (csv_fieldnames_unknown lvl H1 H2 H3). vm_compute. reflexivity.
Qed.

(** Where the path cannot be opened the export ends at [open]: nothing is
    created, written or printed. *)
Lemma save_to_csv_unopened (place : py) (places : list py) (w : World) :
  can_open output_file = false ->
  save_to_csv py_str can_open self (place :: places) output_file w
  = (w, Raise OSError).
Proof. intros Hopen. unfold save_to_csv. io_unfold. now rewrite Hopen. Qed.

(** Opening the file and writing the header. *)
Lemma save_to_csv_nonempty (place : py) (places : list py) (w : World) :
  can_open output_file = true ->
  save_to_csv py_str can_open self (place :: places) output_file w
  = match
      write_rows py_str self (csv_fieldnames self.(data_level)) output_file
        (place :: places) None
        {| files := <[output_file := header_line self.(data_level)]> w.(files);
           stdout := w.(stdout); posted := w.(posted) |}
    with
    | (w1, Ok _) =>
        ({| files := w1.(files);
            stdout := w1.(stdout)
                      ++ [LF ++ "Results saved to: " ++ output_file;
                          "Total places found: "
                          ++ pretty (Z.of_nat (length (place :: places)))];
            posted := w1.(posted) |}, Ok tt)
    | (w1, Raise e) => (w1, Raise e)
    end.
Proof.
  intros Hopen. unfold save_to_csv. io_unfold. rewrite Hopen, writeheader_line.
  cbn [files stdout posted fst snd].
  rewrite alter_insert_eq.
  change ("" ++ header_line (data_level self)) with (header_line (data_level self)).
  destruct (write_rows _ _ _ _ _ _ _) as [w1 [[] | e]]; [| reflexivity].
  cbn. rewrite <- app_assoc. reflexivity.
Qed.
End Exporter.

(** C7. [save_to_csv] on an empty list opens and writes no file, raises
    nothing and prints the one notice; the report step of [main] on an empty
    fetch result therefore completes and leaves the file store as it was. *)
Theorem save_to_csv_empty_writes_nothing
    (py_str : py -> string) (format_4f : float -> string)
    (can_open : string -> bool) (self : PlacesSearcher) (output_file : string) (cost : float) (n : Z)
    (w : World) :
  save_to_csv py_str can_open self [] output_file w
  = ({| files := w.(files);
        stdout := w.(stdout) ++ ["No places found in the results"];
        posted := w.(posted) |}, Ok tt)
  /\ exists w',
       main_report py_str format_4f can_open self cost output_file [] n w = (w', Ok tt)
       /\ w'.(files) = w.(files).
Proof.
  split; [reflexivity |].
  unfold main_report, save_to_csv. io_unfold. cbn.
  eexists. split; reflexivity.
Qed.

(** C4. For a data level outside [id_only], [basic] and [advanced] the client
    requests the minimal field mask and the exporter picks the one-column
    fallback [place_id]; but the loop body of [save_to_csv] has no branch for
    such a level, so on the first record the variable [row] is read unbound:
    the export stops with [UnboundLocalError] after the header line, and no
    record is written.  (The output path is one that can be opened; where it
    cannot, the export ends at [open], see [save_to_csv_unopened].) *)
Theorem unknown_level_export_raises
    (py_str : py -> string) (key lvl : string) (dbg : bool)
    (can_open : string -> bool)
    (place : py) (places : list py) (output_file : string) (w : World) :
  lvl <> "id_only" -> lvl <> "basic" -> lvl <> "advanced" ->
  can_open output_file = true ->
  _get_field_mask lvl = _get_field_mask "id_only"
  /\ csv_fieldnames lvl = ["place_id"]
  /\ save_to_csv py_str can_open (PlacesSearcher_init key lvl dbg) (place :: places)
       output_file w
     = ({| files := <[output_file := "place_id" ++ CRLF]> w.(files);
           stdout := w.(stdout);
           posted := w.(posted) |}, Raise UnboundLocalError).
Proof.
  intros H1 H2 H3 Hopen.
  split.
  { unfold _get_field_mask, mask_fields.
    now rewrite (eqb_false _ _ H1), (eqb_false _ _ H2), (eqb_false _ _ H3). }
  split; [now apply csv_fieldnames_unknown |].
  rewrite save_to_csv_nonempty by exact Hopen. cbn [write_rows]. io_unfold.
  unfold assign_row, header_line. cbn [data_level PlacesSearcher_init].
  rewrite (eqb_false _ _ H1), (eqb_false _ _ H2), (eqb_false _ _ H3).
  rewrite (csv_fieldnames_unknown lvl H1 H2 H3). reflexivity.
Qed.

Lemma unknown_level_export_raises_witness :
  _get_field_mask "premium" = _get_field_mask "id_only"
  /\ csv_fieldnames "premium" = ["place_id"]
  /\ save_to_csv sample_str sample_fs (PlacesSearcher_init "KEY" "premium" false)
       [sample_place2] "out.csv" sample_world
     = ({| files := <["out.csv" := "place_id" ++ CRLF]> sample_world.(files);
           stdout := sample_world.(stdout);
           posted := sample_world.(posted) |}, Raise UnboundLocalError).
Proof.
  apply (unknown_level_export_raises sample_str "KEY" "premium" false
           sample_fs sample_place2 [] "out.csv" sample_world);
    first [discriminate | reflexivity].
Defined.

Lemma dict_lookup_set_eq {A} (k : string) (v : A) (items : list (string * A)) :
  dict_lookup k (dict_set k v items) = Some v.
Proof.
  induction items as [| [k0 v0] items IH]; cbn [dict_set dict_lookup].
  - now rewrite String.eqb_refl.
  - destruct (String.eqb_spec k k0) as [-> | Hne]; cbn [dict_lookup].
    + now rewrite String.eqb_refl.
    + now rewrite (eqb_false _ _ Hne).
Qed.

Lemma get_types_joins (items : list (string * py)) (ts : list string) :
  dict_lookup "types" items = Some (PList (map PStr ts)) ->
  get_types (PDict items) = Ok (PStr (str_join ", " ts)).
Proof.
  intros H. unfold get_types, py_get, py_join. rewrite H.
  assert (Hparts : mapM as_str (map PStr ts) = Ok ts).
  { clear. induction ts as [| t ts IH]; [reflexivity |].
    cbn [map mapM as_str]. rewrite IH. reflexivity. }
  unfold mbind, result_bind, py_iter in *. cbn [from_option id].
  rewrite Hparts. reflexivity.
Qed.

(** C8. What a run of [save_to_csv] does is a function of the client, the
    record list and the path alone: there are one file content (none for the
    empty list, and none where the path cannot be opened: the run then ends
    in [OSError]), one list of printed lines and one result such that the
    run, started in any world, writes exactly that content to the path,
    prints those lines and ends in that result.  Two runs on the same record list
    therefore leave byte-identical files.  The content starts with the header
    line of the data level, its comma-joined column list, and a [types] array
    is joined with a comma and a space, in array order. *)
Theorem save_to_csv_deterministic
    (py_str : py -> string) (can_open : string -> bool)
    (self : PlacesSearcher) (places : list py) (output_file : string) :
  exists (written : option string) (printed : list string) (r : result unit),
    (forall w : World,
        save_to_csv py_str can_open self places output_file w
        = ({| files := match written with
                       | Some content => <[output_file := content]> w.(files)
                       | None => w.(files)
                       end;
              stdout := w.(stdout) ++ printed;
              posted := w.(posted) |}, r))
    /\ match written with
       | Some content =>
           places <> []
           /\ can_open output_file = true
           /\ exists rows, content = header_line self.(data_level) ++ rows
       | None =>
           places = []
           \/ (can_open output_file = false /\ printed = [] /\ r = Raise OSError)
       end
    /\ forall (items : list (string * py)) (ts : list string),
         get_types (PDict (dict_set "types" (PList (map PStr ts)) items))
         = Ok (PStr (str_join ", " ts)).
Proof.
  assert (Hjoin : forall (items : list (string * py)) (ts : list string),
             get_types (PDict (dict_set "types" (PList (map PStr ts)) items))
             = Ok (PStr (str_join ", " ts))).
  { intros items ts. apply get_types_joins, dict_lookup_set_eq. }
  destruct places as [| place rest].
  - exists None, ["No places found in the results"], (Ok tt).
    split; [reflexivity |]. split; [now left | exact Hjoin].
  - destruct (can_open output_file) eqn:Hopen.
    2:{ exists None, [], (Raise OSError).
        split; [| split; [right; repeat split; reflexivity | exact Hjoin]].
        intros w. rewrite save_to_csv_unopened by exact Hopen.
        destruct w. cbn [files stdout posted]. now rewrite app_nil_r. }
    destruct (write_rows_appends py_str self output_file
                (csv_fieldnames self.(data_level)) (place :: rest) None)
      as (data & r & Hrows).
    exists (Some (header_line self.(data_level) ++ data)),
      (match r with
       | Ok _ => [LF ++ "Results saved to: " ++ output_file;
                  "Total places found: "
                  ++ pretty (Z.of_nat (length (place :: rest)))]
       | Raise _ => []
       end),
      (match r with Ok _ => Ok tt | Raise e => Raise e end).
    split; [| split; [split; [discriminate | split; [reflexivity | now exists data]]
                     | exact Hjoin]].
    intros w. rewrite save_to_csv_nonempty by exact Hopen. rewrite Hrows.
    destruct r as [[] | e]; cbn [files stdout posted]; [reflexivity |].
    now rewrite app_nil_r.
Qed.


Lemma assign_row_id_only (py_str : py -> string) (key : string) (dbg : bool)
    (items : list (string * py)) (row : option (list (string * py))) :
  assign_row py_str (PlacesSearcher_init key "id_only" dbg) (PDict items) row
  = Ok (Some [ ("place_id", member items "id");
               ("google_maps_url",
                PStr (MAPS_URL ++ py_format py_str (member items "id"))) ]).
Proof. reflexivity. Qed.

Lemma py_format_identifier (py_str : py -> string) (items : list (string * py)) :
  py_format py_str (member items "id") = identifier_text py_str items.
Proof.
  unfold member, identifier_text.
  destruct (dict_lookup "id" items) as [[| | | | | |] |]; reflexivity.
Qed.







(** C5 as stated fails: at the [basic] level a record without [googleMapsUri]
    gets an empty map-link column, not the link made of its identifier. *)
Lemma map_link_not_synthesized_at_basic :
  ~ map_link_synthesized sample_str sample_searcher sample_place2.
Proof.
  unfold map_link_synthesized. intros H.
  destruct (H eq_refl) as (row & place_id & Hrow & Hid & Hurl).
  vm_compute in Hrow. injection Hrow as <-.
  vm_compute in Hid. injection Hid as <-.
  vm_compute in Hurl. discriminate Hurl.
Qed.

(** C5, amended. At [id_only] the map-link column is the link made of the
    record identifier; at [basic] and [advanced] it is the record's
    [googleMapsUri], and the empty string when the record has none. *)
Theorem map_link_by_level
    (py_str : py -> string) (key lvl : string) (dbg : bool)
    (items : list (string * py)) (row0 : option (list (string * py))) :
  recognized lvl ->
  place_record (PDict items) = true ->
  exists row,
    assign_row py_str (PlacesSearcher_init key lvl dbg) (PDict items) row0
    = Ok (Some row)
    /\ dict_lookup "google_maps_url" row
       = Some (if lvl =? "id_only"
               then PStr (MAPS_URL ++ py_format py_str (member items "id"))
               else member items "googleMapsUri")
    /\ (lvl <> "id_only" ->
        missing (PDict items) (Member "googleMapsUri") = true ->
        dict_lookup "google_maps_url" row = Some (PStr "")).
Proof.
  intros [-> | [-> | ->]] Hrec.
  - eexists. split; [apply assign_row_id_only |].
    split; [reflexivity | intros H; contradiction].
  - destruct (basic_entries_record items Hrec) as (types & Hbasic & _).
    eexists. split.
    { unfold assign_row. cbn [data_level PlacesSearcher_init String.eqb].
      change ("basic" =? "id_only") with false. change ("basic" =? "basic") with true.
      cbv iota. rewrite Hbasic. reflexivity. }
    split; [reflexivity |].
    intros _ Hmiss. cbn. now rewrite (member_missing _ _ Hmiss).
  - destruct (basic_entries_record items Hrec) as (types & Hbasic & _).
    eexists. split.
    { unfold assign_row. cbn [data_level PlacesSearcher_init].
      change ("advanced" =? "id_only") with false.
      change ("advanced" =? "basic") with false.
      change ("advanced" =? "advanced") with true.
      cbv iota. rewrite Hbasic, advanced_entries_record. reflexivity. }
    split; [reflexivity |].
    intros _ Hmiss. cbn. now rewrite (member_missing _ _ Hmiss).
Qed.

Lemma map_link_by_level_witness :
  exists row,
    assign_row sample_str (PlacesSearcher_init "KEY" "basic" false)
      (PDict [("id", PStr "ChIJ2")]) None = Ok (Some row)
    /\ dict_lookup "google_maps_url" row
       = Some (if "basic" =? "id_only"
               then PStr (MAPS_URL ++ py_format sample_str
                                        (member [("id", PStr "ChIJ2")] "id"))
               else member [("id", PStr "ChIJ2")] "googleMapsUri")
    /\ ("basic" <> "id_only" ->
        missing (PDict [("id", PStr "ChIJ2")]) (Member "googleMapsUri") = true ->
        dict_lookup "google_maps_url" row = Some (PStr "")).
Proof.
  apply (map_link_by_level sample_str "KEY" "basic" false
           [("id", PStr "ChIJ2")] None).
  - right. left. reflexivity.
  - reflexivity.
Defined.

(** The cells of a row, in column order, once the writer has looked every
    column up in the row dictionary. *)
Lemma writerow_cells_id_only (py_str : py -> string) (c1 c2 : py) :
  DictWriter_writerow py_str (csv_fieldnames "id_only")
    [("place_id", c1); ("google_maps_url", c2)]
  = Ok (writer_writerow py_str [c1; c2]).
Proof. reflexivity. Qed.

Lemma writerow_cells_basic (py_str : py -> string) (c1 c2 c3 c4 c5 c6 c7 c8 : py) :
  DictWriter_writerow py_str (csv_fieldnames "basic")
    [("place_id", c1); ("name", c2); ("address", c3); ("latitude", c4);
     ("longitude", c5); ("types", c6); ("primary_type", c7);
     ("google_maps_url", c8)]
  = Ok (writer_writerow py_str [c1; c2; c3; c4; c5; c6; c7; c8]).
Proof. reflexivity. Qed.

Lemma writerow_cells_advanced (py_str : py -> string)
    (c1 c2 c3 c4 c5 c6 c7 c8 c9 c10 c11 c12 c13 c14 : py) :
  DictWriter_writerow py_str (csv_fieldnames "advanced")
    [("place_id", c1); ("name", c2); ("address", c3); ("latitude", c4);
     ("longitude", c5); ("types", c6); ("primary_type", c7);
     ("google_maps_url", c8); ("rating", c9); ("user_ratings_total", c10);
     ("phone_national", c11); ("phone_international", c12); ("website", c13);
     ("business_status", c14)]
  = Ok (writer_writerow py_str [c1; c2; c3; c4; c5; c6; c7; c8; c9; c10; c11;
                                 c12; c13; c14]).
Proof. reflexivity. Qed.



Ltac missing_cell Hcol Hsrc Hmiss :=
  injection Hcol as <-;
  vm_compute in Hsrc;
  first
    [ discriminate Hsrc
    | injection Hsrc as <-; f_equal;
      first
        [ apply member_missing; exact Hmiss
        | apply nested_member_missing; exact Hmiss
        | f_equal; auto ] ].

Ltac missing_cells Hcol Hsrc Hmiss :=
  match type of Hcol with
  | _ !! ?i = _ =>
      destruct i as [| i]; simpl in Hcol |- *;
      [ first [discriminate Hcol | missing_cell Hcol Hsrc Hmiss]
      | first [discriminate Hcol | missing_cells Hcol Hsrc Hmiss] ]
  end.

Lemma record_row (py_str : py -> string) (key lvl : string) (dbg : bool)
    (items : list (string * py)) :
  recognized lvl ->
  place_record (PDict items) = true ->
  exists rowdict cells,
    (forall row0,
        assign_row py_str (PlacesSearcher_init key lvl dbg) (PDict items) row0
        = Ok (Some rowdict))
    /\ DictWriter_writerow py_str (csv_fieldnames lvl) rowdict
       = Ok (writer_writerow py_str cells)
    /\ empty_where_missing lvl (PDict items) cells.
Proof.
  intros [-> | [-> | ->]] Hrec.
  - eexists _, _. split; [intros row0; apply assign_row_id_only |].
    split; [apply writerow_cells_id_only |].
    split; [reflexivity |].
    intros i column src Hcol Hsrc Hmiss.
    change (csv_fieldnames "id_only") with ["place_id"; "google_maps_url"] in Hcol.
    missing_cells Hcol Hsrc Hmiss.
  - destruct (basic_entries_record items Hrec) as (types & Hbasic & Htypes).
    eexists _, _. split.
    { intros row0. unfold assign_row. cbn [data_level PlacesSearcher_init].
      change ("basic" =? "id_only") with false. change ("basic" =? "basic") with true.
      cbv iota. rewrite Hbasic. reflexivity. }
    split; [apply writerow_cells_basic |].
    split; [reflexivity |].
    intros i column src Hcol Hsrc Hmiss.
    change (csv_fieldnames "basic")
      with ["place_id"; "name"; "address"; "latitude"; "longitude"; "types";
            "primary_type"; "google_maps_url"] in Hcol.
    missing_cells Hcol Hsrc Hmiss.
  - destruct (basic_entries_record items Hrec) as (types & Hbasic & Htypes).
    eexists _, _. split.
    { intros row0. unfold assign_row. cbn [data_level PlacesSearcher_init].
      change ("advanced" =? "id_only") with false.
      change ("advanced" =? "basic") with false.
      change ("advanced" =? "advanced") with true.
      cbv iota. rewrite Hbasic, advanced_entries_record. reflexivity. }
    split; [apply writerow_cells_advanced |].
    split; [reflexivity |].
    intros i column src Hcol Hsrc Hmiss.
    change (csv_fieldnames "advanced")
      with ["place_id"; "name"; "address"; "latitude"; "longitude"; "types";
            "primary_type"; "google_maps_url"; "rating"; "user_ratings_total";
            "phone_national"; "phone_international"; "website";
            "business_status"] in Hcol.
    missing_cells Hcol Hsrc Hmiss.
Qed.

Lemma concat_lines_cons (line : string) (lines : list string) :
  String.concat "" (line :: lines) = line ++ String.concat "" lines.
Proof.
  destruct lines as [| next lines]; cbn [String.concat].
  - now rewrite str_app_nil_r.
  - reflexivity.
Qed.

Lemma place_record_dict (place : py) :
  place_record place = true -> exists items, place = PDict items.
Proof. destruct place; try discriminate. intros _. eexists. reflexivity. Qed.

(** Every record of a list of Place Records becomes one line. *)
Lemma write_rows_records (py_str : py -> string) (key lvl : string) (dbg : bool)
    (output_file : string) (places : list py) :
  recognized lvl ->
  Forall (fun place => place_record place = true) places ->
  exists rows : list (list py),
    Forall2 (empty_where_missing lvl) places rows
    /\ forall (row0 : option (list (string * py))) (m : gmap string string)
              (content : string) (out : list string) (sent : list py),
         write_rows py_str (PlacesSearcher_init key lvl dbg) (csv_fieldnames lvl)
           output_file places row0
           {| files := <[output_file := content]> m; stdout := out; posted := sent |}
         = ({| files :=
                 <[output_file :=
                     content ++ String.concat "" (map (writer_writerow py_str) rows)]> m;
               stdout := out; posted := sent |}, Ok tt).
Proof.
  intros Hlvl. induction 1 as [| place places Hplace _ (rows & Hrows & Hrun)].
  - exists []. split; [constructor |]. intros. cbn. now rewrite str_app_nil_r.
  - destruct (place_record_dict place Hplace) as (items & ->).
    destruct (record_row py_str key lvl dbg items Hlvl Hplace)
      as (rowdict & cells & Hassign & Hline & Hcells).
    exists (cells :: rows). split; [constructor; assumption |].
    intros row0 m content out sent. cbn [write_rows]. io_unfold.
    rewrite Hassign. cbn [read_row]. rewrite Hline.
    cbn [files stdout posted]. rewrite alter_insert_eq, Hrun.
    cbn [map]. rewrite concat_lines_cons, str_app_assoc. reflexivity.
Qed.

(** C6. At every recognised level the export of a non-empty list of Place
    Records to a path that can be opened succeeds: the file holds the header and exactly one line per
    record, in order, and in each row every column whose source (a member, a
    nested object or a member of the nested object) is missing from the
    record holds the empty string. *)
Theorem missing_members_export_empty
    (py_str : py -> string) (key lvl : string) (dbg : bool)
    (can_open : string -> bool)
    (place : py) (places : list py) (output_file : string) (w : World) :
  recognized lvl ->
  Forall (fun p => place_record p = true) (place :: places) ->
  can_open output_file = true ->
  exists rows : list (list py),
    save_to_csv py_str can_open (PlacesSearcher_init key lvl dbg) (place :: places)
      output_file w
    = (exported output_file
         (header_line lvl ++ String.concat "" (map (writer_writerow py_str) rows))
         [LF ++ "Results saved to: " ++ output_file;
          "Total places found: " ++ pretty (Z.of_nat (length (place :: places)))]
         w, Ok tt)
    /\ Forall2 (empty_where_missing lvl) (place :: places) rows.
Proof.
  intros Hlvl Hplaces Hopen.
  destruct (write_rows_records py_str key lvl dbg output_file (place :: places)
              Hlvl Hplaces) as (rows & Hrows & Hrun).
  exists rows. split; [| exact Hrows].
  rewrite save_to_csv_nonempty by exact Hopen. cbn [data_level PlacesSearcher_init].
  rewrite Hrun. reflexivity.
Qed.

Lemma missing_members_export_empty_witness :
  exists rows : list (list py),
    save_to_csv sample_str sample_fs sample_searcher [sample_place1; sample_place2]
      "out.csv" sample_world
    = (exported "out.csv"
         (header_line "basic"
          ++ String.concat "" (map (writer_writerow sample_str) rows))
         [LF ++ "Results saved to: " ++ "out.csv";
          "Total places found: "
          ++ pretty (Z.of_nat (length [sample_place1; sample_place2]))]
         sample_world, Ok tt)
    /\ Forall2 (empty_where_missing "basic") [sample_place1; sample_place2] rows.
Proof.
  apply (missing_members_export_empty sample_str "KEY" "basic" false
           sample_fs sample_place1 [sample_place2] "out.csv" sample_world).
  - right. left. reflexivity.
  - repeat constructor.
  - reflexivity.
Defined.

(** ** Further properties of the search loop *)

Lemma request_shape (latitude longitude radius : float)
    (include_types : option (list string)) (token : py) :
  fixed_filter latitude longitude radius include_types
    (request latitude longitude radius include_types token).
Proof.
  unfold fixed_filter, request, build_payload.
  destruct include_types as [[| t ts] |]; destruct (truthy token);
    (eexists; split; [reflexivity |];
     split; [reflexivity |]; split; [reflexivity |]; split; [reflexivity |];
     split; [reflexivity |];
     cbn [dict_set String.eqb Ascii.eqb Bool.eqb];
     repeat (constructor; [cbn [fst In]; tauto |]); constructor).
Qed.

Section Runs.

Variable py_str : py -> string.
Variable json_dumps : py -> string.
Variable error_message : RequestKind -> Response -> string.
Variable self : PlacesSearcher.
Variables latitude longitude radius : float.
Variable include_types : option (list string).

Let loop := search_loop py_str json_dumps error_message self
              latitude longitude radius include_types.
Let req := request latitude longitude radius include_types.

Lemma accept_page_only_prints (body : py) (st : LoopState) (w : World) :
  only_prints w (fst (accept_page json_dumps self body st w)).
Proof.
  unfold accept_page, when, py_get.
  destruct body as [| | | | | |items];
    try (destruct (debug self); io_unfold; cbn; split; reflexivity).
  destruct (debug self); io_unfold; cbn;
    destruct (py_iter (from_option id (PList []) (dict_lookup "places" items)));
    cbn; split; reflexivity.
Qed.

(** Whatever the replies: the loop touches no file and posts between one
    request and one more than there are replies. *)
Lemma loop_frame (script : list Reply) :
  forall (st : LoopState) (w : World),
  exists tokens : list py,
    (fst (loop script st w)).(files) = w.(files)
    /\ (fst (loop script st w)).(posted)
       = (w.(posted) ++ map req (st.(next_page_token) :: tokens))%list
    /\ (length tokens <= length script)%nat
    /\ (snd (loop script st w) = None -> length tokens = length script).
Proof.
  unfold loop, req.
  induction script as [| reply script IH]; intros st w.
  - exists []. rewrite search_loop_blocked.
    destruct (send_posts json_dumps self latitude longitude radius include_types st w)
      as [Hf Hp].
    cbn [fst snd map length]. repeat split; auto.
  - rewrite search_loop_step.
    destruct (send_posts json_dumps self latitude longitude radius include_types st w)
      as [Hf0 Hp0].
    set (w0 := run (send_request json_dumps self
                      (request latitude longitude radius include_types
                         (next_page_token st))) w) in *.
    destruct (receive_cases py_str error_message self reply w0)
      as (w1 & [Hf1 Hp1] & [(body & Hr & _) | (e & Hr & _)]); rewrite Hr.
    + pose proof (accept_page_only_prints body st w1) as [Hf2 Hp2].
      destruct (accept_page json_dumps self body st w1) as [w2 [st2 | e]];
        cbn [fst] in Hf2, Hp2.
      * destruct (truthy (next_page_token st2)).
        -- destruct (IH st2 w2) as (tokens & Hf' & Hp' & Hlen & Hnone).
           exists (next_page_token st2 :: tokens).
           split; [congruence |].
           split.
           { rewrite Hp', Hp2, Hp1, Hp0. cbn [map]. now rewrite <- app_assoc. }
           split; [cbn [length]; lia |].
           intros H. cbn [length]. f_equal. auto.
        -- exists []. cbn [fst snd map length].
           split; [congruence |]. split; [congruence |].
           split; [lia | discriminate].
      * exists []. cbn [fst snd map length].
        split; [congruence |]. split; [congruence |].
        split; [lia | discriminate].
    + destruct (request_failed_exits (A := list py * Z) e w1) as (w2 & Hrf & Hf2 & Hp2).
      rewrite Hrf. exists []. cbn [fst snd map length].
      split; [congruence |]. split; [congruence |].
      split; [lia | discriminate].
Qed.

Lemma loop_blocks_on_tokens (pages : list Reply) (bodies : list py) :
  Forall2 (fun reply body => page_body reply = Some body /\ carries_token body = true)
    pages bodies ->
  forall (st : LoopState) (w : World),
  exists w',
    loop pages st w = (w', None)
    /\ w'.(posted)
       = (w.(posted) ++ map req (st.(next_page_token) :: map page_token bodies))%list.
Proof.
  unfold loop, req.
  induction 1 as [| reply body pages bodies [Hb Ht] _ IH]; intros st w.
  - rewrite search_loop_blocked. eexists. split; [reflexivity |].
    apply (send_posts json_dumps self latitude longitude radius include_types st w).
  - destruct (loop_page_step py_str json_dumps error_message self latitude
                longitude radius include_types reply body pages st w Hb)
      as (w1 & Hf & Hp & Hl).
    rewrite Ht in Hl. destruct (IH (after_page st body) w1) as (w' & Hrun & Hp').
    exists w'. rewrite Hl, Hrun. split; [reflexivity |].
    rewrite Hp', Hp, <- app_assoc. reflexivity.
Qed.

Lemma loop_body_error_step (reply : Reply) (e : exn) (script : list Reply)
    (st : LoopState) (w : World) :
  body_error reply = Some e ->
  exists w1,
    loop (reply :: script) st w = (w1, Some (Raise e))
    /\ w1.(files) = w.(files)
    /\ w1.(posted) = (w.(posted) ++ [req st.(next_page_token)])%list.
Proof.
  intros Herr. unfold loop, req. rewrite search_loop_step.
  destruct (send_posts json_dumps self latitude longitude radius include_types st w)
    as [Hf0 Hp0].
  set (w0 := run (send_request json_dumps self
                    (request latitude longitude radius include_types
                       (next_page_token st))) w) in *.
  destruct reply as [x | r]; [discriminate |]. unfold body_error in Herr.
  unfold receive. io_unfold.
  destruct (debug_raw_response_only_prints py_str self r w0) as (w1 & -> & Hf1 & Hp1).
  destruct (is_error_status r); [discriminate |].
  destruct (json r) as [body |]; [| discriminate].
  pose proof (accept_page_only_prints body st w1) as [Hf2 Hp2].
  assert (Hraise : snd (accept_page json_dumps self body st w1) = Raise e).
  { unfold accept_page, when, py_get.
    destruct body as [| | | | | | items]; try (injection Herr as <-);
      try (destruct (debug self); reflexivity).
    destruct (dict_lookup "places" items) as [[| | | | | |] |];
      try discriminate; injection Herr as <-;
      destruct (debug self); reflexivity. }
  destruct (accept_page json_dumps self body st w1) as [w2 r2].
  cbn [fst snd] in *. subst r2.
  exists w2. split; [reflexivity |]. split; congruence.
Qed.

Lemma loop_body_error (pages : list Reply) (bodies : list py) :
  Forall2 (fun reply body => page_body reply = Some body /\ carries_token body = true)
    pages bodies ->
  forall (reply : Reply) (e : exn) (rest : list Reply) (st : LoopState) (w : World),
    body_error reply = Some e ->
    exists w',
      loop (pages ++ reply :: rest) st w = (w', Some (Raise e))
      /\ w'.(files) = w.(files)
      /\ w'.(posted)
         = (w.(posted) ++ map req (st.(next_page_token) :: map page_token bodies))%list.
Proof.
  unfold loop, req.
  induction 1 as [| page body pages bodies [Hb Ht] _ IH];
    intros reply e rest st w Herr.
  - destruct (loop_body_error_step reply e rest st w Herr) as (w1 & Hl & Hf & Hp).
    exists w1. cbn [app map]. auto.
  - destruct (loop_page_step py_str json_dumps error_message self latitude
                longitude radius include_types page body
                (pages ++ reply :: rest) st w Hb) as (w1 & Hf & Hp & Hl).
    rewrite Ht in Hl.
    destruct (IH reply e rest (after_page st body) w1 Herr) as (w' & Hrun & Hf' & Hp').
    exists w'. cbn [app]. rewrite Hl, Hrun. split; [reflexivity |].
    split; [congruence |]. rewrite Hp', Hp, <- app_assoc. reflexivity.
Qed.

End Runs.

Section TwoClients.

Variable py_str : py -> string.
Variable json_dumps : py -> string.
Variable error_message : RequestKind -> Response -> string.
Variables self1 self2 : PlacesSearcher.
Variables latitude longitude radius : float.
Variable include_types : option (list string).

Lemma receive_same_value (reply : Reply) (w1 w2 : World) :
  snd (receive py_str error_message self1 reply w1)
  = snd (receive py_str error_message self2 reply w2).
Proof.
  destruct reply as [e | r]; [reflexivity |].
  unfold receive. io_unfold.
  destruct (debug_raw_response_only_prints py_str self1 r w1) as (w1' & -> & _).
  destruct (debug_raw_response_only_prints py_str self2 r w2) as (w2' & -> & _).
  destruct (is_error_status r); [reflexivity |].
  destruct (json r); reflexivity.
Qed.

Lemma accept_page_same_value (body : py) (st : LoopState) (w1 w2 : World) :
  snd (accept_page json_dumps self1 body st w1)
  = snd (accept_page json_dumps self2 body st w2).
Proof.
  unfold accept_page, when, py_get.
  destruct body as [| | | | | | items];
    try (destruct (debug self1); destruct (debug self2); reflexivity).
  destruct (debug self1); destruct (debug self2); io_unfold; cbn;
    destruct (py_iter (from_option id (PList []) (dict_lookup "places" items)));
    reflexivity.
Qed.

(** Two clients lead the loop to the same result, the same files and the
    same payloads: the loop body reads the client for its diagnostics only
    (the headers go with the request and are no part of the payload). *)
Lemma loop_ignores_client (script : list Reply) :
  forall (st : LoopState) (w1 w2 : World),
    w1.(files) = w2.(files) ->
    w1.(posted) = w2.(posted) ->
    snd (search_loop py_str json_dumps error_message self1 latitude longitude
           radius include_types script st w1)
    = snd (search_loop py_str json_dumps error_message self2 latitude longitude
             radius include_types script st w2)
    /\ (fst (search_loop py_str json_dumps error_message self1 latitude longitude
               radius include_types script st w1)).(files)
       = (fst (search_loop py_str json_dumps error_message self2 latitude longitude
                 radius include_types script st w2)).(files)
    /\ (fst (search_loop py_str json_dumps error_message self1 latitude longitude
               radius include_types script st w1)).(posted)
       = (fst (search_loop py_str json_dumps error_message self2 latitude longitude
                 radius include_types script st w2)).(posted).
Proof.
  induction script as [| reply script IH]; intros st w1 w2 Hf Hp.
  - rewrite !search_loop_blocked. cbn [fst snd].
    destruct (send_posts json_dumps self1 latitude longitude radius include_types st w1)
      as [Hf1 Hp1].
    destruct (send_posts json_dumps self2 latitude longitude radius include_types st w2)
      as [Hf2 Hp2].
    split; [reflexivity |]. split; congruence.
  - rewrite !search_loop_step.
    destruct (send_posts json_dumps self1 latitude longitude radius include_types st w1)
      as [Hf1 Hp1].
    destruct (send_posts json_dumps self2 latitude longitude radius include_types st w2)
      as [Hf2 Hp2].
    set (u1 := run (send_request json_dumps self1 _) w1) in *.
    set (u2 := run (send_request json_dumps self2 _) w2) in *.
    pose proof (receive_same_value reply u1 u2) as Hsame.
    destruct (receive_cases py_str error_message self1 reply u1)
      as (v1 & [Hfv1 Hpv1] & [(body1 & Hr1 & _) | (e1 & Hr1 & _)]);
      destruct (receive_cases py_str error_message self2 reply u2)
        as (v2 & [Hfv2 Hpv2] & [(body2 & Hr2 & _) | (e2 & Hr2 & _)]);
      rewrite Hr1, Hr2 in Hsame |- *; cbn [snd] in Hsame; try discriminate.
    + injection Hsame as <-.
      pose proof (accept_page_same_value body1 st v1 v2) as Hacc.
      pose proof (accept_page_only_prints json_dumps self1 body1 st v1) as [Hfa1 Hpa1].
      pose proof (accept_page_only_prints json_dumps self2 body1 st v2) as [Hfa2 Hpa2].
      destruct (accept_page json_dumps self1 body1 st v1) as [x1 r1].
      destruct (accept_page json_dumps self2 body1 st v2) as [x2 r2].
      cbn [fst snd] in *. subst r2.
      destruct r1 as [st' | e].
      * destruct (truthy (next_page_token st')).
        -- apply IH; congruence.
        -- cbn [fst snd]. split; [reflexivity |]. split; congruence.
      * cbn [fst snd]. split; [reflexivity |]. split; congruence.
    + injection Hsame as <-.
      destruct (request_failed_exits (A := list py * Z) e1 v1) as (x1 & -> & Hfx1 & Hpx1).
      destruct (request_failed_exits (A := list py * Z) e1 v2) as (x2 & -> & Hfx2 & Hpx2).
      cbn [fst snd]. split; [reflexivity |]. split; congruence.
Qed.

End TwoClients.

(** ** Every request of a run *)

(** X1.  Whatever the service replies, a search posts at least one request
    and at most one more than it received replies, and touches no file.
    Every payload carries the same circle, [maxResultCount] 20 and
    [rankPreference] DISTANCE; [includedTypes] is there exactly when
    [include_types] is a non-empty list; no payload has a member besides
    these and [pageToken], so the [keyword] argument is never sent. *)
Theorem search_nearby_requests_keep_filter
    (py_str json_dumps : py -> string)
    (error_message : RequestKind -> Response -> string)
    (self : PlacesSearcher) (latitude longitude radius : float)
    (keyword : option string) (include_types : option (list string))
    (script : list Reply) (w : World) :
  exists payloads : list py,
    (fst (search_nearby py_str json_dumps error_message self latitude longitude
            radius keyword include_types script w)).(posted)
    = (w.(posted) ++ payloads)%list
    /\ (1 <= length payloads <= length script + 1)%nat
    /\ Forall (fixed_filter latitude longitude radius include_types) payloads
    /\ (fst (search_nearby py_str json_dumps error_message self latitude longitude
               radius keyword include_types script w)).(files)
       = w.(files).
Proof.
  destruct (loop_frame py_str json_dumps error_message self latitude longitude
              radius include_types script
              {| all_places := []; next_page_token := PNone; request_count := 0 |} w)
    as (tokens & Hf & Hp & Hlen & _).
  exists (map (request latitude longitude radius include_types) (PNone :: tokens)).
  split; [exact Hp |].
  split; [rewrite length_map; cbn [length]; lia |].
  split; [| exact Hf].
  generalize (PNone :: tokens). intros toks.
  induction toks as [| tok toks IH]; cbn [map].
  - constructor.
  - constructor; [apply request_shape | exact IH].
Qed.

(** X2.  The loop has no page limit: as long as every reply is a page that
    carries a token, the search sends the next request, with that token,
    and has not returned; after n such pages it has posted n + 1 payloads. *)
Theorem search_nearby_has_no_page_cap
    (py_str json_dumps : py -> string)
    (error_message : RequestKind -> Response -> string)
    (self : PlacesSearcher) (latitude longitude radius : float)
    (keyword : option string) (include_types : option (list string))
    (pages : list Reply) (bodies : list py) (w : World) :
  Forall2 (fun reply body => page_body reply = Some body /\ carries_token body = true)
    pages bodies ->
  exists (w' : World) (payloads : list py),
    search_nearby py_str json_dumps error_message self latitude longitude radius
      keyword include_types pages w = (w', None)
    /\ w'.(posted) = (w.(posted) ++ payloads)%list
    /\ length payloads = (length pages + 1)%nat
    /\ payloads
       = map (request latitude longitude radius include_types)
           (PNone :: map page_token bodies).
Proof.
  intros Hpages.
  destruct (loop_blocks_on_tokens py_str json_dumps error_message self latitude
              longitude radius include_types pages bodies Hpages
              {| all_places := []; next_page_token := PNone; request_count := 0 |} w)
    as (w' & Hrun & Hp).
  exists w', (map (request latitude longitude radius include_types)
                (PNone :: map page_token bodies)).
  split; [exact Hrun |]. split; [exact Hp |].
  split; [| reflexivity].
  cbn [length map]. rewrite !length_map.
  rewrite <- (Forall2_length _ _ _ Hpages). lia.
Qed.

Lemma search_nearby_has_no_page_cap_witness :
  exists (w' : World) (payloads : list py),
    search_nearby sample_str sample_str sample_error sample_searcher 40.5 (-74.25)
      500 None (Some ["cafe"]) [sample_reply sample_page1; sample_reply sample_page1]
      sample_world = (w', None)
    /\ w'.(posted) = (sample_world.(posted) ++ payloads)%list
    /\ length payloads
       = (length [sample_reply sample_page1; sample_reply sample_page1] + 1)%nat
    /\ payloads
       = map (request 40.5 (-74.25) 500 (Some ["cafe"]))
           (PNone :: map page_token [sample_page1; sample_page1]).
Proof.
  apply (search_nearby_has_no_page_cap sample_str sample_str sample_error
           sample_searcher 40.5 (-74.25) 500 None (Some ["cafe"])
           [sample_reply sample_page1; sample_reply sample_page1]
           [sample_page1; sample_page1] sample_world).
  repeat (constructor; [split; reflexivity |]). constructor.
Defined.

(** X3.  A reply with a success status whose decoded body is not a JSON
    object, or whose [places] member is null, a boolean or a number, raises
    [AttributeError] or [TypeError] inside the [try]; the [except] clause
    catches request errors only, so the exception leaves [search_nearby]
    (exit status 1, not through [sys.exit]), no file is touched and no
    further request is sent. *)
Theorem malformed_body_escapes_except
    (py_str json_dumps : py -> string)
    (error_message : RequestKind -> Response -> string)
    (self : PlacesSearcher) (latitude longitude radius : float)
    (keyword : option string) (include_types : option (list string))
    (pages : list Reply) (bodies : list py) (reply : Reply) (e : exn)
    (rest : list Reply) (w : World) :
  Forall2 (fun reply body => page_body reply = Some body /\ carries_token body = true)
    pages bodies ->
  body_error reply = Some e ->
  exists w' : World,
    search_nearby py_str json_dumps error_message self latitude longitude radius
      keyword include_types (pages ++ reply :: rest)%list w
    = (w', Some (Raise e))
    /\ (e = AttributeError \/ e = TypeError)
    /\ exit_status (Raise e) = 1%Z
    /\ w'.(files) = w.(files)
    /\ length w'.(posted) = (length w.(posted) + length pages + 1)%nat.
Proof.
  intros Hpages Herr.
  destruct (loop_body_error py_str json_dumps error_message self latitude
              longitude radius include_types pages bodies Hpages reply e rest
              {| all_places := []; next_page_token := PNone; request_count := 0 |}
              w Herr) as (w' & Hrun & Hf & Hp).
  assert (He : e = AttributeError \/ e = TypeError).
  { unfold body_error in Herr. destruct reply as [x | r]; [discriminate |].
    destruct (is_error_status r); [discriminate |].
    destruct (json r) as [[| | | | | | items] |]; try discriminate;
      try (injection Herr as <-; now left).
    destruct (dict_lookup "places" items) as [[| | | | | |] |];
      try discriminate; injection Herr as <-; now right. }
  exists w'. split; [exact Hrun |]. split; [exact He |].
  split; [destruct He as [-> | ->]; reflexivity |].
  split; [exact Hf |].
  rewrite Hp, length_app. cbn [length map]. rewrite !length_map.
  rewrite <- (Forall2_length _ _ _ Hpages). lia.
Qed.

Lemma malformed_body_escapes_except_witness :
  exists w' : World,
    search_nearby sample_str sample_str sample_error sample_searcher 40.5 (-74.25)
      500 None None
      ([sample_reply sample_page1] ++ sample_reply (PList []) :: [sample_reply sample_page2])%list
      sample_world
    = (w', Some (Raise AttributeError))
    /\ (AttributeError = AttributeError \/ AttributeError = TypeError)
    /\ exit_status (Raise AttributeError) = 1%Z
    /\ w'.(files) = sample_world.(files)
    /\ length w'.(posted)
       = (length sample_world.(posted) + length [sample_reply sample_page1] + 1)%nat.
Proof.
  apply (malformed_body_escapes_except sample_str sample_str sample_error
           sample_searcher 40.5 (-74.25) 500 None None [sample_reply sample_page1]
           [sample_page1] (sample_reply (PList [])) AttributeError
           [sample_reply sample_page2] sample_world).
  - constructor; [split; reflexivity | constructor].
  - reflexivity.
Defined.

(** X4.  The [debug] flag changes printed lines only: with and without it
    a search returns the same result (or raises the same exception), posts
    the same payloads and leaves the same files. *)
Theorem debug_flag_changes_prints_only
    (py_str json_dumps : py -> string)
    (error_message : RequestKind -> Response -> string)
    (key lvl : string) (latitude longitude radius : float)
    (keyword : option string) (include_types : option (list string))
    (script : list Reply) (w : World) :
  snd (search_nearby py_str json_dumps error_message
         (PlacesSearcher_init key lvl true) latitude longitude radius keyword
         include_types script w)
  = snd (search_nearby py_str json_dumps error_message
           (PlacesSearcher_init key lvl false) latitude longitude radius keyword
           include_types script w)
  /\ (fst (search_nearby py_str json_dumps error_message
             (PlacesSearcher_init key lvl true) latitude longitude radius keyword
             include_types script w)).(files)
     = (fst (search_nearby py_str json_dumps error_message
               (PlacesSearcher_init key lvl false) latitude longitude radius
               keyword include_types script w)).(files)
  /\ (fst (search_nearby py_str json_dumps error_message
             (PlacesSearcher_init key lvl true) latitude longitude radius keyword
             include_types script w)).(posted)
     = (fst (search_nearby py_str json_dumps error_message
               (PlacesSearcher_init key lvl false) latitude longitude radius
               keyword include_types script w)).(posted).
Proof.
  unfold search_nearby. apply loop_ignores_client; reflexivity.
Qed.

(** ** The driver and the file store *)

Lemma save_to_csv_store (py_str : py -> string) (can_open : string -> bool)
    (self : PlacesSearcher) (places : list py) (output_file : string) :
  exists written : option string,
    (places <> [] -> can_open output_file = true -> written <> None)
    /\ forall w : World,
         (fst (save_to_csv py_str can_open self places output_file w)).(files)
         = match written with
           | Some content => <[output_file := content]> w.(files)
           | None => w.(files)
           end
         /\ (fst (save_to_csv py_str can_open self places output_file w)).(posted)
            = w.(posted).
Proof.
  destruct places as [| place rest].
  - exists None. split; [intros H; now contradiction H |].
    intros w. split; reflexivity.
  - destruct (can_open output_file) eqn:Hopen.
    2:{ exists None. split; [discriminate |].
        intros w. rewrite save_to_csv_unopened by exact Hopen.
        split; reflexivity. }
    destruct (write_rows_appends py_str self output_file
                (csv_fieldnames self.(data_level)) (place :: rest) None)
      as (data & r & Hrows).
    exists (Some (header_line self.(data_level) ++ data)).
    split; [discriminate |].
    intros w. rewrite save_to_csv_nonempty by exact Hopen. rewrite Hrows.
    destruct r as [[] | e]; split; reflexivity.
Qed.

Lemma main_report_store (py_str : py -> string) (format_4f : float -> string)
    (can_open : string -> bool)
    (searcher : PlacesSearcher) (cost : float) (output : string)
    (places : list py) (n : Z) (w : World) :
  (fst (main_report py_str format_4f can_open searcher cost output places n w)).(files)
  = (fst (save_to_csv py_str can_open searcher places output w)).(files)
  /\ (snd (main_report py_str format_4f can_open searcher cost output places n w)
      = snd (save_to_csv py_str can_open searcher places output w)).
Proof.
  unfold main_report. io_unfold.
  destruct (save_to_csv py_str can_open searcher places output w) as [w1 [[] | e]];
    cbn; split; reflexivity.
Qed.

Lemma main_setup_cases (py_str : py -> string) (format_4f : float -> string)
    (args : Args.t) (credential : option string) (timestamp : string) (w : World) :
  ((credential = None \/ credential = Some "")
   /\ main_setup py_str format_4f args credential timestamp w
      = ({| files := w.(files);
            stdout := w.(stdout)
                      ++ ["Error: GOOGLE_MAPS_API_KEY not found in .env file"];
            posted := w.(posted) |}, Raise (SystemExit 1)))
  \/ (exists key w1 cost,
        credential = Some key /\ key <> ""
        /\ main_setup py_str format_4f args credential timestamp w
           = (w1, Ok (PlacesSearcher_init key args.(Args.data_level)
                        args.(Args.debug),
                      cost, parse_categories args.(Args.category),
                      output_path args.(Args.output) timestamp))
        /\ only_prints w w1).
Proof.
  destruct credential as [[| c k] |].
  - left. split; [now right | reflexivity].
  - right.
    destruct (main_setup_ok py_str format_4f args (String c k) timestamp w)
      as (w1 & cost & Hsetup & _ & Hw); [discriminate |].
    exists (String c k), w1, cost. repeat split; try assumption; try discriminate.
    apply Hw. apply Hw.
  - left. split; [now left | reflexivity].
Qed.

(** ** The credential check *)

Lemma main_report_posted (py_str : py -> string) (format_4f : float -> string)
    (can_open : string -> bool)
    (searcher : PlacesSearcher) (cost : float) (output : string)
    (places : list py) (n : Z) (w : World) :
  (fst (main_report py_str format_4f can_open searcher cost output places n w)).(posted)
  = w.(posted).
Proof.
  destruct (save_to_csv_store py_str can_open searcher places output)
    as (written & _ & Hstore).
  destruct (Hstore w) as [_ Hp]. unfold main_report. io_unfold.
  destruct (save_to_csv py_str can_open searcher places output w) as [w1 [[] | e]];
    exact Hp.
Qed.

(** X5.  [main] contacts the service exactly when it has a credential:
    without [GOOGLE_MAPS_API_KEY], or with an empty one, it prints the error
    line and exits with status 1 before any request and any file; with a
    non-empty one at least one request is posted. *)
Theorem main_sends_requests_iff_credential
    (py_str json_dumps : py -> string) (format_4f : float -> string)
    (error_message : RequestKind -> Response -> string)
    (can_open : string -> bool)
    (args : Args.t) (credential : option string) (timestamp : string)
    (script : list Reply) (w : World) :
  ((fst (main py_str json_dumps format_4f error_message can_open args credential
           timestamp script w)).(posted) = w.(posted)
   <-> credential = None \/ credential = Some "")
  /\ (credential = None \/ credential = Some "" ->
      main py_str json_dumps format_4f error_message can_open args credential
        timestamp script w
      = ({| files := w.(files);
            stdout := w.(stdout)
                      ++ ["Error: GOOGLE_MAPS_API_KEY not found in .env file"];
            posted := w.(posted) |}, Some (Raise (SystemExit 1)))
      /\ exit_status (Raise (SystemExit 1)) = 1%Z).
Proof.
  split.
  - split.
    + intros Hposted. revert Hposted. unfold main.
      destruct (main_setup_cases py_str format_4f args credential timestamp w)
        as [[Hcred _] | (key & w1 & cost & _ & _ & -> & _ & Hp1)];
        [intros _; exact Hcred |].
      unfold search_nearby.
      destruct (loop_frame py_str json_dumps error_message
                  (PlacesSearcher_init key args.(Args.data_level) args.(Args.debug))
                  args.(Args.lat) args.(Args.lng) args.(Args.radius)
                  (parse_categories args.(Args.category)) script
                  {| all_places := []; next_page_token := PNone;
                     request_count := 0 |} w1) as (tokens & _ & Hp2 & _).
      destruct (search_loop _ _ _ _ _ _ _ _ _ _ _) as [w2 [[[places n] | e] |]];
        cbn [fst] in Hp2 |- *.
      * pose proof (main_report_posted py_str format_4f can_open
                      (PlacesSearcher_init key args.(Args.data_level)
                         args.(Args.debug))
                      cost (output_path args.(Args.output) timestamp) places n w2)
          as Hp3.
        destruct (main_report _ _ _ _ _ _ _ _ _) as [w3 r]. cbn [fst] in Hp3 |- *.
        intros Hposted. exfalso.
        apply (f_equal (@length py)) in Hposted.
        rewrite Hp3, Hp2, Hp1, length_app in Hposted. cbn [length map] in Hposted.
        lia.
      * intros Hposted. exfalso. apply (f_equal (@length py)) in Hposted.
        rewrite Hp2, Hp1, length_app in Hposted. cbn [length map] in Hposted. lia.
      * intros Hposted. exfalso. apply (f_equal (@length py)) in Hposted.
        rewrite Hp2, Hp1, length_app in Hposted. cbn [length map] in Hposted. lia.
    + intros [-> | ->]; reflexivity.
  - intros [-> | ->]; split; reflexivity.
Qed.

(** ** What a run leaves alone *)

(** X6.  [save_to_csv] touches one path: every other file is as it was and
    no request is sent, whatever the records are and whether or not the
    export fails.  For a non-empty record list the output file exists
    afterwards where the path can be opened; where it cannot, the export
    ends in [OSError] at [open] and leaves the whole world as it was:
    no file is created and nothing is printed. *)
Theorem save_to_csv_touches_output_only
    (py_str : py -> string) (can_open : string -> bool)
    (self : PlacesSearcher) (places : list py)
    (output_file other : string) (w : World) :
  other <> output_file ->
  (fst (save_to_csv py_str can_open self places output_file w)).(files) !! other
  = w.(files) !! other
  /\ (fst (save_to_csv py_str can_open self places output_file w)).(posted)
     = w.(posted)
  /\ (places <> [] ->
      can_open output_file = true ->
      (fst (save_to_csv py_str can_open self places output_file w)).(files)
        !! output_file <> None)
  /\ (places <> [] ->
      can_open output_file = false ->
      save_to_csv py_str can_open self places output_file w = (w, Raise OSError)).
Proof.
  intros Hne.
  destruct (save_to_csv_store py_str can_open self places output_file)
    as (written & Hsome & Hstore).
  destruct (Hstore w) as [Hf Hp]. rewrite Hf.
  split; [| split; [exact Hp | split]].
  - destruct written; [now rewrite lookup_insert_ne | reflexivity].
  - intros Hplaces Hopen.
    destruct written as [content |]; [| now contradiction (Hsome Hplaces Hopen)].
    rewrite lookup_insert_eq. discriminate.
  - intros Hplaces Hopen. destruct places as [| place rest]; [now contradiction Hplaces |].
    now apply save_to_csv_unopened.
Qed.

Lemma save_to_csv_touches_output_only_witness :
  ((fst (save_to_csv sample_str sample_fs sample_searcher [sample_place1; PInt 7]
           "out.csv" sample_world)).(files) !! "notes.txt"
   = sample_world.(files) !! "notes.txt"
   /\ (fst (save_to_csv sample_str sample_fs sample_searcher [sample_place1; PInt 7]
              "out.csv" sample_world)).(files) !! "out.csv" <> None)
  /\ save_to_csv sample_str sample_fs sample_searcher [sample_place1; PInt 7]
       "nodir/out.csv" sample_world
     = (sample_world, Raise OSError).
Proof.
  split.
  - destruct (save_to_csv_touches_output_only sample_str sample_fs sample_searcher
                [sample_place1; PInt 7] "out.csv" "notes.txt" sample_world)
      as (Hother & _ & Hfile & _); [discriminate |].
    split; [exact Hother |]. apply Hfile; [discriminate | reflexivity].
  - destruct (save_to_csv_touches_output_only sample_str sample_fs sample_searcher
                [sample_place1; PInt 7] "nodir/out.csv" "notes.txt" sample_world)
      as (_ & _ & _ & Hfail); [discriminate |].
    apply Hfail; [discriminate | reflexivity].
Defined.

(** X7.  A run of [main] writes to no path but the output path, with any
    credential, any arguments, any replies of the service and any file
    system. *)
Theorem main_touches_output_only
    (py_str json_dumps : py -> string) (format_4f : float -> string)
    (error_message : RequestKind -> Response -> string)
    (can_open : string -> bool)
    (args : Args.t) (credential : option string) (timestamp : string)
    (script : list Reply) (other : string) (w : World) :
  other <> output_path args.(Args.output) timestamp ->
  (fst (main py_str json_dumps format_4f error_message can_open args credential
          timestamp script w)).(files) !! other
  = w.(files) !! other.
Proof.
  intros Hne. unfold main.
  destruct (main_setup_cases py_str format_4f args credential timestamp w)
    as [[_ ->] | (key & w1 & cost & _ & _ & -> & Hf1 & _)]; [reflexivity |].
  unfold search_nearby.
  destruct (loop_frame py_str json_dumps error_message
              (PlacesSearcher_init key args.(Args.data_level) args.(Args.debug))
              args.(Args.lat) args.(Args.lng) args.(Args.radius)
              (parse_categories args.(Args.category)) script
              {| all_places := []; next_page_token := PNone; request_count := 0 |}
              w1) as (tokens & Hf2 & _).
  destruct (search_loop _ _ _ _ _ _ _ _ _ _ _) as [w2 [[[places n] | e] |]];
    cbn [fst] in Hf2 |- *; try (now rewrite Hf2, Hf1).
  pose proof (main_report_store py_str format_4f can_open
                (PlacesSearcher_init key args.(Args.data_level) args.(Args.debug))
                cost (output_path args.(Args.output) timestamp) places n w2)
    as [Hf3 _].
  destruct (main_report _ _ _ _ _ _ _ _ _) as [w3 r]. cbn [fst] in Hf3 |- *.
  rewrite Hf3.
  destruct (save_to_csv_store py_str can_open
              (PlacesSearcher_init key args.(Args.data_level) args.(Args.debug))
              places (output_path args.(Args.output) timestamp))
    as (written & _ & Hstore).
  destruct (Hstore w2) as [-> _].
  destruct written; [rewrite lookup_insert_ne by congruence |];
    now rewrite Hf2, Hf1.
Qed.

Lemma main_touches_output_only_witness :
  (fst (main sample_str sample_str sample_4f sample_error sample_fs sample_args
          (Some "KEY") "20240101_000000" [sample_reply sample_page2]
          sample_world)).(files) !! "notes.txt"
  = sample_world.(files) !! "notes.txt".
Proof.
  apply (main_touches_output_only sample_str sample_str sample_4f sample_error
           sample_fs sample_args (Some "KEY") "20240101_000000"
           [sample_reply sample_page2] "notes.txt" sample_world).
  discriminate.
Defined.

(** ** The lines of the records *)

Lemma mapM_as_str_text (ts : list py) :
  forallb is_str ts = true ->
  mapM as_str ts
  = Ok (map (fun t => match t with PStr s => s | _ => "" end) ts).
Proof.
  induction ts as [| [| | | | s | |] ts IH]; cbn; try discriminate.
  - reflexivity.
  - intros H. rewrite (IH H). reflexivity.
Qed.

Lemma get_types_text (items : list (string * py)) :
  absent_or is_str_list (dict_lookup "types" items) = true ->
  get_types (PDict items) = Ok (PStr (types_text items)).
Proof.
  unfold get_types, py_get, py_join, absent_or, types_text.
  destruct (dict_lookup "types" items) as [[| | | | | ts |] |]; try discriminate.
  - cbn [is_str_list]. intros H. pose proof (mapM_as_str_text ts H) as Hparts.
    unfold mbind, result_bind, py_iter in *. cbn [from_option id].
    rewrite Hparts. reflexivity.
  - intros _. reflexivity.
Qed.

(** The row of a Place Record at the basic level, cell by cell. *)
Lemma basic_entries_cells (items : list (string * py)) :
  place_record (PDict items) = true ->
  basic_entries (PDict items)
  = Ok [ ("place_id", member items "id");
         ("name", nested_member items "displayName" "text");
         ("address", member items "formattedAddress");
         ("latitude", nested_member items "location" "latitude");
         ("longitude", nested_member items "location" "longitude");
         ("types", PStr (types_text items));
         ("primary_type", member items "primaryType");
         ("google_maps_url", member items "googleMapsUri") ].
Proof.
  unfold place_record. intros H.
  apply andb_prop in H as [H Htypes]. apply andb_prop in H as [Hname Hloc].
  unfold basic_entries.
  rewrite (get_nested_record items "displayName" "text" Hname),
    !(get_nested_record items "location" _ Hloc), (get_types_text items Htypes).
  reflexivity.
Qed.

(** The loop body on a Place Record: the row it builds is written as the
    line of the record. *)
Lemma record_row_line (py_str : py -> string) (key lvl : string) (dbg : bool)
    (items : list (string * py)) :
  recognized lvl ->
  place_record (PDict items) = true ->
  exists rowdict,
    (forall row0,
        assign_row py_str (PlacesSearcher_init key lvl dbg) (PDict items) row0
        = Ok (Some rowdict))
    /\ DictWriter_writerow py_str (csv_fieldnames lvl) rowdict
       = Ok (record_line py_str lvl (PDict items)).
Proof.
  intros [-> | [-> | ->]] Hrec.
  - eexists. split; [intros row0; apply assign_row_id_only |].
    rewrite writerow_cells_id_only, py_format_identifier. reflexivity.
  - eexists. split.
    { intros row0. unfold assign_row. cbn [data_level PlacesSearcher_init].
      change ("basic" =? "id_only") with false. change ("basic" =? "basic") with true.
      cbv iota. rewrite (basic_entries_cells items Hrec). reflexivity. }
    rewrite writerow_cells_basic. reflexivity.
  - eexists. split.
    { intros row0. unfold assign_row. cbn [data_level PlacesSearcher_init].
      change ("advanced" =? "id_only") with false.
      change ("advanced" =? "basic") with false.
      change ("advanced" =? "advanced") with true.
      cbv iota. rewrite (basic_entries_cells items Hrec), advanced_entries_record.
      reflexivity. }
    cbn [app]. rewrite writerow_cells_advanced. reflexivity.
Qed.

(** The rows loop on Place Records writes the line of each, in order. *)
Lemma write_rows_lines (py_str : py -> string) (key lvl : string) (dbg : bool)
    (output_file : string) (places : list py) :
  recognized lvl ->
  Forall (fun place => place_record place = true) places ->
  forall (row0 : option (list (string * py))) (m : gmap string string)
         (content : string) (out : list string) (sent : list py),
    write_rows py_str (PlacesSearcher_init key lvl dbg) (csv_fieldnames lvl)
      output_file places row0
      {| files := <[output_file := content]> m; stdout := out; posted := sent |}
    = ({| files :=
            <[output_file :=
                content ++ String.concat "" (map (record_line py_str lvl) places)]> m;
          stdout := out; posted := sent |}, Ok tt).
Proof.
  intros Hlvl. induction 1 as [| place places Hplace _ Hrun].
  - intros. cbn. now rewrite str_app_nil_r.
  - destruct (place_record_dict place Hplace) as (items & ->).
    destruct (record_row_line py_str key lvl dbg items Hlvl Hplace)
      as (rowdict & Hassign & Hline).
    intros row0 m content out sent. cbn [write_rows]. io_unfold.
    rewrite Hassign. cbn [read_row]. rewrite Hline.
    cbn [files stdout posted]. rewrite alter_insert_eq, Hrun.
    cbn [map]. rewrite concat_lines_cons, str_app_assoc. reflexivity.
Qed.

Lemma assign_row_ignores_row (py_str : py -> string) (key lvl : string)
    (dbg : bool) (place : py) (row1 row2 : option (list (string * py))) :
  recognized lvl ->
  assign_row py_str (PlacesSearcher_init key lvl dbg) place row1
  = assign_row py_str (PlacesSearcher_init key lvl dbg) place row2.
Proof. intros [-> | [-> | ->]]; reflexivity. Qed.

(** The rows loop stops at the first record whose row cannot be built. *)
Lemma write_rows_stops (py_str : py -> string) (key lvl : string) (dbg : bool)
    (output_file : string) (good : list py) (bad : py) (e : exn)
    (rest : list py) :
  recognized lvl ->
  Forall (fun place => place_record place = true) good ->
  assign_row py_str (PlacesSearcher_init key lvl dbg) bad None = Raise e ->
  forall (row0 : option (list (string * py))) (m : gmap string string)
         (content : string) (out : list string) (sent : list py),
    write_rows py_str (PlacesSearcher_init key lvl dbg) (csv_fieldnames lvl)
      output_file (good ++ bad :: rest)%list row0
      {| files := <[output_file := content]> m; stdout := out; posted := sent |}
    = ({| files :=
            <[output_file :=
                content ++ String.concat "" (map (record_line py_str lvl) good)]> m;
          stdout := out; posted := sent |}, Raise e).
Proof.
  intros Hlvl Hgood Hbad.
  induction Hgood as [| place good Hplace _ Hrun].
  - intros. cbn [app write_rows]. io_unfold.
    rewrite (assign_row_ignores_row py_str key lvl dbg bad row0 None Hlvl), Hbad.
    cbn. now rewrite str_app_nil_r.
  - destruct (place_record_dict place Hplace) as (items & ->).
    destruct (record_row_line py_str key lvl dbg items Hlvl Hplace)
      as (rowdict & Hassign & Hline).
    intros row0 m content out sent. cbn [app write_rows]. io_unfold.
    rewrite Hassign. cbn [read_row]. rewrite Hline.
    cbn [files stdout posted]. rewrite alter_insert_eq, Hrun.
    cbn [map]. rewrite concat_lines_cons, str_app_assoc. reflexivity.
Qed.

(** ** A complete run, and an export cut short *)

(** X8.  A full run: with a credential, a recognized data level, and N
    replies that are pages of Place Records of which the last is the first
    without a token, [main] sends N requests and then exports.  Where the
    output path can be opened it completes with exit status 0, and the
    output file holds the header line followed by the line of every record
    of all the pages, in page order: each column holds the member the column
    reads from the record, the empty string when it is not there.  Where the
    path cannot be opened the run ends in [OSError], exit status 1, after
    the same N requests, and leaves no file. *)
Theorem main_exports_all_pages
    (py_str json_dumps : py -> string) (format_4f : float -> string)
    (error_message : RequestKind -> Response -> string)
    (can_open : string -> bool)
    (args : Args.t) (key timestamp : string)
    (pages : list Reply) (bodies : list py) (last : Reply) (final : py)
    (rest : list Reply) (w : World) :
  key <> "" ->
  recognized args.(Args.data_level) ->
  Forall2 (fun reply body => page_body reply = Some body /\ carries_token body = true)
    pages bodies ->
  page_body last = Some final ->
  carries_token final = false ->
  concat (map page_places (bodies ++ [final])%list) <> [] ->
  Forall (fun place => place_record place = true)
    (concat (map page_places (bodies ++ [final])%list)) ->
  exists (w' : World) (r : result unit),
    main py_str json_dumps format_4f error_message can_open args (Some key)
      timestamp (pages ++ last :: rest)%list w = (w', Some r)
    /\ length w'.(posted) = (length w.(posted) + length pages + 1)%nat
    /\ (can_open (output_path args.(Args.output) timestamp) = true ->
        r = Ok tt
        /\ exit_status r = 0%Z
        /\ w'.(files)
           = <[output_path args.(Args.output) timestamp :=
                 header_line args.(Args.data_level)
                 ++ String.concat ""
                      (map (record_line py_str args.(Args.data_level))
                         (concat (map page_places (bodies ++ [final])%list)))]>
               w.(files))
    /\ (can_open (output_path args.(Args.output) timestamp) = false ->
        r = Raise OSError
        /\ exit_status r = 1%Z
        /\ w'.(files) = w.(files)).
Proof.
  intros Hkey Hlvl Hpages Hlast Hfinal Hne Hrecords.
  destruct (main_setup_ok py_str format_4f args key timestamp w Hkey)
    as (w1 & cost & Hsetup & _ & Hf1 & Hp1).
  destruct (loop_follows_pages py_str json_dumps error_message
              (PlacesSearcher_init key args.(Args.data_level) args.(Args.debug))
              args.(Args.lat) args.(Args.lng) args.(Args.radius)
              (parse_categories args.(Args.category)) pages bodies Hpages
              last final rest
              {| all_places := []; next_page_token := PNone; request_count := 0 |}
              w1 Hlast Hfinal) as (w2 & Hrun & Hf2 & Hp2).
  cbn [all_places app] in Hrun.
  assert (Hposted : length w2.(posted) = (length w.(posted) + length pages + 1)%nat).
  { rewrite Hp2, Hp1, length_app. cbn [length map]. rewrite !length_map.
    rewrite <- (Forall2_length _ _ _ Hpages). lia. }
  set (places := concat (map page_places (bodies ++ [final])%list)) in *.
  destruct places as [| place more] eqn:Hplaces; [now contradiction Hne |].
  destruct (can_open (output_path args.(Args.output) timestamp)) eqn:Hopen.
  - pose proof (write_rows_lines py_str key args.(Args.data_level)
                  args.(Args.debug) (output_path args.(Args.output) timestamp)
                  (place :: more) Hlvl Hrecords) as Hwrite.
    eexists _, (Ok tt). split.
    { unfold main, search_nearby. rewrite Hsetup, Hrun.
      unfold main_report. io_unfold. rewrite save_to_csv_nonempty by exact Hopen.
      cbn [data_level PlacesSearcher_init]. rewrite Hwrite. cbn. reflexivity. }
    cbn [files posted]. split; [exact Hposted |].
    split; [| discriminate].
    intros _. split; [reflexivity |]. split; [reflexivity |].
    now rewrite Hf2, Hf1.
  - eexists _, (Raise OSError). split.
    { unfold main, search_nearby. rewrite Hsetup, Hrun.
      unfold main_report. io_unfold. rewrite save_to_csv_unopened by exact Hopen.
      reflexivity. }
    split; [exact Hposted |].
    split; [discriminate |].
    intros _. split; [reflexivity |]. split; [reflexivity |].
    now rewrite Hf2, Hf1.
Qed.

Lemma main_exports_all_pages_witness :
  exists (w' : World) (r : result unit),
    main sample_str sample_str sample_4f sample_error sample_fs sample_args
      (Some "KEY") "20240101_000000"
      ([sample_reply sample_page1] ++ sample_reply sample_page2 :: [])%list
      sample_world = (w', Some r)
    /\ length w'.(posted)
       = (length sample_world.(posted) + length [sample_reply sample_page1] + 1)%nat
    /\ (sample_fs (output_path sample_args.(Args.output) "20240101_000000") = true ->
        r = Ok tt
        /\ exit_status r = 0%Z
        /\ w'.(files)
           = <[output_path sample_args.(Args.output) "20240101_000000" :=
                 header_line sample_args.(Args.data_level)
                 ++ String.concat ""
                      (map (record_line sample_str sample_args.(Args.data_level))
                         (concat (map page_places
                                    ([sample_page1] ++ [sample_page2])%list)))]>
               sample_world.(files))
    /\ (sample_fs (output_path sample_args.(Args.output) "20240101_000000") = false ->
        r = Raise OSError
        /\ exit_status r = 1%Z
        /\ w'.(files) = sample_world.(files)).
Proof.
  apply (main_exports_all_pages sample_str sample_str sample_4f sample_error
           sample_fs sample_args "KEY" "20240101_000000"
           [sample_reply sample_page1] [sample_page1] (sample_reply sample_page2)
           sample_page2 [] sample_world).
  - discriminate.
  - right. left. reflexivity.
  - constructor; [split; reflexivity | constructor].
  - reflexivity.
  - reflexivity.
  - discriminate.
  - repeat constructor.
Defined.

(** X9.  The export stops at the first record it cannot take apart: when
    the records before it are Place Records and the path can be opened, the
    exception leaves [save_to_csv], the file holds the header and exactly
    the lines of the records before the failing one, later records are not
    written and the "Results saved" lines are not printed. *)
Theorem export_stops_at_failing_record
    (py_str : py -> string) (key lvl : string) (dbg : bool)
    (can_open : string -> bool)
    (good : list py) (bad : py) (e : exn) (rest : list py)
    (output_file : string) (w : World) :
  recognized lvl ->
  Forall (fun place => place_record place = true) good ->
  assign_row py_str (PlacesSearcher_init key lvl dbg) bad None = Raise e ->
  can_open output_file = true ->
  save_to_csv py_str can_open (PlacesSearcher_init key lvl dbg)
    (good ++ bad :: rest)%list output_file w
  = (exported output_file
       (header_line lvl ++ String.concat "" (map (record_line py_str lvl) good))
       [] w, Raise e).
Proof.
  intros Hlvl Hgood Hbad Hopen.
  pose proof (write_rows_stops py_str key lvl dbg output_file good bad e rest
                Hlvl Hgood Hbad) as Hrun.
  assert (Hcons : exists p ps, (good ++ bad :: rest)%list = p :: ps).
  { destruct good; cbn; eauto. }
  destruct Hcons as (p & ps & Heq).
  rewrite Heq, save_to_csv_nonempty by exact Hopen. rewrite <- Heq.
  cbn [data_level PlacesSearcher_init]. rewrite Hrun.
  unfold exported. now rewrite app_nil_r.
Qed.

Lemma export_stops_at_failing_record_witness :
  save_to_csv sample_str sample_fs (PlacesSearcher_init "KEY" "basic" false)
    ([sample_place1; sample_place2] ++ PInt 7 :: [sample_place2])%list "out.csv"
    sample_world
  = (exported "out.csv"
       (header_line "basic"
        ++ String.concat ""
             (map (record_line sample_str "basic") [sample_place1; sample_place2]))
       [] sample_world, Raise AttributeError).
Proof.
  apply (export_stops_at_failing_record sample_str "KEY" "basic" false sample_fs
           [sample_place1; sample_place2] (PInt 7) AttributeError [sample_place2]
           "out.csv" sample_world).
  - right. left. reflexivity.
  - repeat constructor.
  - reflexivity.
  - reflexivity.
Defined.

(** ** The category list *)

Lemma all_bytes_app (ok : ascii -> bool) (a b : string) :
  all_bytes ok (a ++ b) = all_bytes ok a && all_bytes ok b.
Proof.
  induction a as [| c a IH]; [reflexivity |].
  change (String c a ++ b) with (String c (a ++ b)). cbn [all_bytes].
  now rewrite IH, andb_assoc.
Qed.

Lemma all_bytes_impl (ok ok' : ascii -> bool) (s : string) :
  (forall c, ok c = true -> ok' c = true) ->
  all_bytes ok s = true -> all_bytes ok' s = true.
Proof.
  intros Himpl. induction s as [| c s IH]; [reflexivity |]. cbn [all_bytes].
  intros [Hc Hs]%andb_prop. now rewrite (Himpl c Hc), (IH Hs).
Qed.

Lemma all_bytes_blanks (ok : ascii -> bool) (n : nat) :
  ok " "%char = true -> all_bytes ok (str_repeat " " n) = true.
Proof.
  intros Hok. induction n as [| n IH]; [reflexivity |].
  cbn [str_repeat]. change (" " ++ str_repeat " " n) with (String " " (str_repeat " " n)).
  cbn [all_bytes]. now rewrite Hok, IH.
Qed.

Lemma name_byte_cases (c : ascii) :
  name_byte c = true ->
  is_space (String c "") = false
  /\ is_continuation c = false
  /\ Ascii.eqb c "," = false.
Proof.
  destruct c as [[] [] [] [] [] [] [] []]; intros H;
    first [discriminate H | repeat split; vm_compute; reflexivity].
Qed.

Lemma singles_app (a b : string) : singles (a ++ b) = (singles a ++ singles b)%list.
Proof.
  induction a as [| c a IH]; [reflexivity |].
  change (String c a ++ b) with (String c (a ++ b)). cbn [singles app].
  now rewrite IH.
Qed.

Lemma singles_blanks (n : nat) : singles (str_repeat " " n) = repeat " " n.
Proof.
  induction n as [| n IH]; [reflexivity |].
  cbn [str_repeat repeat].
  change (" " ++ str_repeat " " n) with (String " " (str_repeat " " n)).
  cbn [singles]. now rewrite IH.
Qed.

Lemma concat_singles (s : string) : String.concat "" (singles s) = s.
Proof.
  induction s as [| c s IH]; [reflexivity |].
  cbn [singles]. destruct s as [| d s]; [reflexivity |].
  cbn [singles] in IH |- *. cbn [String.concat] in IH |- *.
  change (String c "" ++ "" ++ ?x) with (String c x). now rewrite IH.
Qed.

(** A string without continuation bytes has one character per byte. *)
Lemma str_chars_singles (s : string) :
  all_bytes (fun c => negb (is_continuation c)) s = true ->
  str_chars s = singles s.
Proof.
  induction s as [| c s IH]; [reflexivity |]. cbn [all_bytes].
  intros [_ Hs]%andb_prop. cbn [str_chars singles]. rewrite (IH Hs).
  destruct s as [| d s]; [reflexivity |].
  cbn [singles starts_on_continuation]. cbn [all_bytes] in Hs.
  apply andb_prop in Hs as [Hd _]. apply negb_true_iff in Hd. now rewrite Hd.
Qed.

Lemma drop_spaces_blanks (n : nat) (chars : list string) :
  drop_spaces (repeat " " n ++ chars)%list = drop_spaces chars.
Proof. induction n as [| n IH]; [reflexivity | exact IH]. Qed.

Lemma rev_blanks (n : nat) : rev (repeat " " n) = repeat " " n.
Proof.
  induction n as [| n IH]; [reflexivity |].
  cbn [repeat rev]. rewrite IH. symmetry. apply repeat_cons.
Qed.

Lemma drop_spaces_name (chars rest : list string) :
  chars <> [] ->
  Forall (fun ch => is_space ch = false) chars ->
  drop_spaces (chars ++ rest)%list = (chars ++ rest)%list.
Proof.
  intros Hne Hchars. destruct Hchars as [| ch chars Hch _]; [now contradiction Hne |].
  cbn [app drop_spaces]. now rewrite Hch.
Qed.

Lemma singles_name (name : string) :
  type_name name = true ->
  singles name <> [] /\ Forall (fun ch => is_space ch = false) (singles name).
Proof.
  unfold type_name. destruct name as [| c name]; [discriminate |].
  intros Hbytes. split; [discriminate |].
  revert Hbytes. generalize (String c name). clear c name. intros s.
  induction s as [| c s IH]; cbn [all_bytes singles]; [constructor |].
  intros [Hc Hs]%andb_prop. constructor; [| exact (IH Hs)].
  apply (name_byte_cases c Hc).
Qed.

Lemma padded_bytes (ok : ascii -> bool) (entry : nat * string * nat) :
  ok " "%char = true ->
  (forall c, name_byte c = true -> ok c = true) ->
  type_name (entry_name entry) = true ->
  all_bytes ok (padded entry) = true.
Proof.
  destruct entry as [[before name] after]. unfold entry_name, padded. cbn [fst snd].
  intros Hblank Hname Htype. rewrite !all_bytes_app, !all_bytes_blanks by exact Hblank.
  cbn [andb]. rewrite andb_true_r.
  apply (all_bytes_impl name_byte); [exact Hname |].
  unfold type_name in Htype. now destruct name.
Qed.

(** [strip] takes the blanks typed around a type name away. *)
Lemma str_strip_padded (entry : nat * string * nat) :
  type_name (entry_name entry) = true ->
  str_strip (padded entry) = entry_name entry.
Proof.
  intros Htype. unfold str_strip. rewrite str_chars_singles.
  2:{ apply padded_bytes; [reflexivity | | exact Htype].
      intros c Hc. apply negb_true_iff. apply (name_byte_cases c Hc). }
  destruct entry as [[before name] after]. unfold entry_name, padded in *.
  cbn [fst snd] in *. destruct (singles_name name Htype) as [Hne Hvisible].
  rewrite !singles_app, !singles_blanks, drop_spaces_blanks.
  rewrite drop_spaces_name by assumption.
  rewrite rev_app_distr, rev_blanks, drop_spaces_blanks.
  rewrite <- (app_nil_r (rev (singles name))), drop_spaces_name.
  - rewrite app_nil_r, rev_involutive. apply concat_singles.
  - intros Hrev. apply Hne. rewrite <- (rev_involutive (singles name)), Hrev.
    reflexivity.
  - apply Forall_rev. exact Hvisible.
Qed.

(** Splitting on the comma: a piece without a comma is read to its end. *)
Lemma split_from_piece (piece : string) :
  all_bytes (fun c => negb (Ascii.eqb c ",")) piece = true ->
  forall cur : string,
    split_from "," 0 cur piece = [cur ++ piece]
    /\ forall rest : string,
         split_from "," 0 cur (piece ++ String "," rest)
         = (cur ++ piece) :: split_from "," 0 "" rest.
Proof.
  induction piece as [| c piece IH]; intros Hfree cur.
  - rewrite str_app_nil_r. split; [reflexivity |]. intros rest.
    change ("" ++ String "," rest) with (String "," rest).
    cbn [split_from String.prefix].
    destruct (ascii_dec "," ",") as [_ | Hdiff]; [| now contradiction Hdiff].
    now destruct rest.
  - cbn [all_bytes] in Hfree. apply andb_prop in Hfree as [Hc Hfree].
    apply negb_true_iff in Hc.
    assert (Hcur : forall tail, (cur ++ String c "") ++ tail = cur ++ String c tail).
    { intros tail. now rewrite str_app_assoc. }
    assert (Hprefix : forall tail, String.prefix "," (String c tail) = false).
    { intros tail. cbn [String.prefix].
      destruct (ascii_dec "," c) as [<- | _]; [discriminate Hc | reflexivity]. }
    destruct (IH Hfree (cur ++ String c "")) as [Hend Hmore]. split.
    + cbn [split_from]. now rewrite Hprefix, Hend, Hcur.
    + intros rest.
      change (String c piece ++ String "," rest)
        with (String c (piece ++ String "," rest)).
      cbn [split_from]. now rewrite Hprefix, Hmore, Hcur.
Qed.

(** [split] undoes [join] on pieces that hold no comma. *)
Lemma str_split_join (parts : list string) :
  parts <> [] ->
  Forall (fun piece => all_bytes (fun c => negb (Ascii.eqb c ",")) piece = true)
    parts ->
  str_split "," (str_join "," parts) = parts.
Proof.
  intros Hne Hparts. unfold str_split, str_join.
  induction Hparts as [| piece parts Hpiece Hparts IH]; [now contradiction Hne |].
  destruct parts as [| next parts].
  - cbn [String.concat]. now destruct (split_from_piece piece Hpiece "") as [-> _].
  - cbn [String.concat] in IH |- *.
    change ("," ++ ?x) with (String "," x).
    destruct (split_from_piece piece Hpiece "") as [_ ->].
    f_equal. apply IH. discriminate.
Qed.

Lemma parse_categories_padded (entries : list (nat * string * nat)) :
  entries <> [] ->
  Forall (fun entry => type_name (entry_name entry) = true) entries ->
  parse_categories (Some (str_join "," (map padded entries)))
  = Some (map entry_name entries).
Proof.
  intros Hne Hentries.
  assert (Hsplit : str_split "," (str_join "," (map padded entries))
                   = map padded entries).
  { apply str_split_join; [now destruct entries |]. clear Hne.
    induction Hentries as [| entry entries Hentry _ IH]; constructor.
    - apply padded_bytes; [reflexivity | | exact Hentry].
      intros c Hc. apply negb_true_iff. apply (name_byte_cases c Hc).
    - exact IH. }
  assert (Hstrip : map str_strip (map padded entries) = map entry_name entries).
  { clear Hne Hsplit.
    induction Hentries as [| entry entries Hentry _ IH]; [reflexivity |].
    cbn [map]. now rewrite str_strip_padded, IH. }
  unfold parse_categories.
  destruct (str_join "," (map padded entries)) as [| c cs] eqn:Hjoined.
  - exfalso. destruct entries as [| entry entries]; [now apply Hne |].
    inversion Hentries as [| ? ? Hentry _]; subst.
    cbn [map] in Hsplit, Hstrip.
    change (str_split "," "") with [""] in Hsplit.
    injection Hsplit as Hpad _. injection Hstrip as Hname _.
    rewrite <- Hpad in Hname. change (str_strip "") with "" in Hname.
    rewrite <- Hname in Hentry. discriminate Hentry.
  - now rewrite Hsplit, Hstrip.
Qed.

(** X10.  [--category] is cut at the commas and every piece is stripped:
    type names typed with blanks around them and joined by commas reach
    every request as the list of the bare names, in order.  An empty
    [--category], like a missing one, puts no [includedTypes] in the
    payload. *)
Theorem categories_are_split_and_trimmed
    (entries : list (nat * string * nat))
    (latitude longitude radius : float) (token : py) :
  entries <> [] ->
  Forall (fun entry => type_name (entry_name entry) = true) entries ->
  parse_categories (Some (str_join "," (map padded entries)))
  = Some (map entry_name entries)
  /\ sent_types
       (request latitude longitude radius
          (parse_categories (Some (str_join "," (map padded entries)))) token)
     = Some (PList (map PStr (map entry_name entries)))
  /\ sent_types (request latitude longitude radius (parse_categories (Some "")) token)
     = None
  /\ sent_types (request latitude longitude radius (parse_categories None) token)
     = None.
Proof.
  intros Hne Hentries.
  rewrite (parse_categories_padded entries Hne Hentries).
  split; [reflexivity |].
  unfold sent_types, request, build_payload, parse_categories.
  destruct entries as [| entry entries]; [now contradiction Hne |].
  cbn [map]. destruct (truthy token); repeat split; reflexivity.
Qed.

Lemma categories_are_split_and_trimmed_witness :
  parse_categories
    (Some (str_join "," (map padded [(0, "restaurant", 0); (1, "coffee_shop", 2)])))
  = Some (map entry_name [(0, "restaurant", 0); (1, "coffee_shop", 2)])
  /\ sent_types
       (request 40.5 (-74.25) 500
          (parse_categories
             (Some (str_join ","
                      (map padded [(0, "restaurant", 0); (1, "coffee_shop", 2)]))))
          (PStr "tok1"))
     = Some (PList (map PStr
                      (map entry_name [(0, "restaurant", 0); (1, "coffee_shop", 2)])))
  /\ sent_types (request 40.5 (-74.25) 500 (parse_categories (Some "")) (PStr "tok1"))
     = None
  /\ sent_types (request 40.5 (-74.25) 500 (parse_categories None) (PStr "tok1"))
     = None.
Proof.
  apply (categories_are_split_and_trimmed
           [(0, "restaurant", 0); (1, "coffee_shop", 2)] 40.5 (-74.25) 500
           (PStr "tok1")).
  - discriminate.
  - repeat constructor.
Defined.

(** ** The exporter reads requested members only *)

Ltac requested_member H name :=
  rewrite (H name)
    by (vm_compute; repeat first [left; reflexivity | right]).

Lemma assign_row_same_requested (py_str : py -> string) (key lvl : string)
    (dbg : bool) (place1 place2 : py) (row : option (list (string * py))) :
  same_requested lvl place1 place2 ->
  assign_row py_str (PlacesSearcher_init key lvl dbg) place1 row
  = assign_row py_str (PlacesSearcher_init key lvl dbg) place2 row.
Proof.
  intros (items1 & items2 & -> & -> & Hsame).
  unfold assign_row. cbn [data_level PlacesSearcher_init].
  destruct (lvl =? "id_only") eqn:Hid.
  { apply String.eqb_eq in Hid. subst lvl. unfold py_get.
    requested_member Hsame "id". reflexivity. }
  destruct (lvl =? "basic") eqn:Hbasic.
  { apply String.eqb_eq in Hbasic. subst lvl.
    unfold basic_entries, get_nested, get_types, py_get.
    requested_member Hsame "id". requested_member Hsame "displayName".
    requested_member Hsame "formattedAddress". requested_member Hsame "location".
    requested_member Hsame "types". requested_member Hsame "primaryType".
    requested_member Hsame "googleMapsUri". reflexivity. }
  destruct (lvl =? "advanced") eqn:Hadvanced; [| reflexivity].
  apply String.eqb_eq in Hadvanced. subst lvl.
  unfold basic_entries, advanced_entries, get_nested, get_types, py_get.
  requested_member Hsame "id". requested_member Hsame "displayName".
  requested_member Hsame "formattedAddress". requested_member Hsame "location".
  requested_member Hsame "types". requested_member Hsame "primaryType".
  requested_member Hsame "googleMapsUri". requested_member Hsame "rating".
  requested_member Hsame "userRatingCount".
  requested_member Hsame "nationalPhoneNumber".
  requested_member Hsame "internationalPhoneNumber".
  requested_member Hsame "websiteUri". requested_member Hsame "businessStatus".
  reflexivity.
Qed.

Lemma write_rows_same_requested (py_str : py -> string) (key lvl : string)
    (dbg : bool) (fieldnames : list string) (output_file : string)
    (places1 places2 : list py) :
  Forall2 (same_requested lvl) places1 places2 ->
  forall (row : option (list (string * py))) (w : World),
    write_rows py_str (PlacesSearcher_init key lvl dbg) fieldnames output_file
      places1 row w
    = write_rows py_str (PlacesSearcher_init key lvl dbg) fieldnames output_file
        places2 row w.
Proof.
  induction 1 as [| place1 place2 places1 places2 Hsame _ IH]; intros row w;
    [reflexivity |].
  cbn [write_rows]. io_unfold.
  rewrite (assign_row_same_requested py_str key lvl dbg place1 place2 row Hsame).
  destruct (assign_row py_str (PlacesSearcher_init key lvl dbg) place2 row)
    as [row' | e]; [| reflexivity].
  destruct (read_row row') as [rowdict | e]; [| reflexivity].
  destruct (DictWriter_writerow py_str fieldnames rowdict) as [line | e];
    [| reflexivity].
  apply IH.
Qed.

(** X11.  The export reads only what the field mask asks the service for:
    two record lists that agree, record by record, on every member named in
    the mask of the data level give the same file, the same printed lines
    and the same outcome, whether or not the path can be opened. *)
Theorem export_reads_requested_members_only
    (py_str : py -> string) (key lvl : string) (dbg : bool)
    (can_open : string -> bool)
    (places1 places2 : list py) (output_file : string) (w : World) :
  Forall2 (same_requested lvl) places1 places2 ->
  save_to_csv py_str can_open (PlacesSearcher_init key lvl dbg) places1 output_file w
  = save_to_csv py_str can_open (PlacesSearcher_init key lvl dbg) places2 output_file w.
Proof.
  intros Hsame. pose proof (Forall2_length _ _ _ Hsame) as Hlen.
  destruct Hsame as [| place1 place2 places1 places2 Hplace Hrest];
    [reflexivity |].
  assert (Hall : Forall2 (same_requested lvl) (place1 :: places1)
                   (place2 :: places2)) by (constructor; assumption).
  unfold save_to_csv. io_unfold.
  destruct (can_open output_file); [| reflexivity].
  destruct (DictWriter_writeheader py_str
              (csv_fieldnames (data_level (PlacesSearcher_init key lvl dbg))))
    as [header | e]; [| reflexivity].
  rewrite (write_rows_same_requested py_str key lvl dbg _ output_file _ _ Hall).
  rewrite Hlen. reflexivity.
Qed.

Lemma export_reads_requested_members_only_witness :
  save_to_csv sample_str sample_fs (PlacesSearcher_init "KEY" "basic" false)
    [PDict [("id", PStr "ChIJ2"); ("reviews", PList [PStr "fine"])]] "out.csv"
    sample_world
  = save_to_csv sample_str sample_fs (PlacesSearcher_init "KEY" "basic" false)
      [sample_place2] "out.csv" sample_world.
Proof.
  apply (export_reads_requested_members_only sample_str "KEY" "basic" false
           sample_fs
           [PDict [("id", PStr "ChIJ2"); ("reviews", PList [PStr "fine"])]]
           [sample_place2] "out.csv" sample_world).
  constructor; [| constructor].
  eexists _, _. split; [reflexivity |]. split; [reflexivity |].
  intros name Hin. vm_compute in Hin.
  repeat (destruct Hin as [Hin | Hin]; [injection Hin as <-; reflexivity |]).
  contradiction.
Defined.
